(** * aStockPe: alignment and indicator engine

    A shallow embedding of the data pipeline of [AKShareSummer.py] and of the
    indicator computation of the equity-bond-spread chart script, together
    with the properties stated about them.

    Modelling conventions.
    - A float cell is [option Q]: [None] is NaN, [Some q] an exact rational.
      Rounding is not modelled; arithmetic is exact.
    - A timestamp is a whole day, a [Z] day ordinal.
    - A data frame is stored column-major, as pandas does: one index list and
      an ordered association list of named columns.
    - [print] and [logging] calls that carry a warning or an error are
      recorded as events; purely informational output is not recorded. *)

From Stdlib Require Import QArith ZArith List String Lia Bool Sorting.Sorted Permutation.
From stdpp Require Import base list strings option.

Close Scope Q_scope.
Close Scope Z_scope.
Open Scope nat_scope.
Open Scope string_scope.
Open Scope list_scope.

(** ** Cells and columns *)

(** A float cell; [None] is NaN. *)
Abbreviation cell := (option Q).

Definition isna (c : cell) : bool :=
  match c with None => true | Some _ => false end.

Definition notna (c : cell) : bool := negb (isna c).

(** Binary float arithmetic: NaN is absorbing. *)
Definition cell_lift2 (f : Q -> Q -> Q) (a b : cell) : cell :=
  match a, b with
  | Some x, Some y => Some (f x y)
  | _, _ => None
  end.

Definition cell_add := cell_lift2 Qplus.
Definition cell_sub := cell_lift2 Qminus.

(** [k * c] for a Python scalar [k]. *)
Definition cell_scale (k : Q) (c : cell) : cell :=
  match c with Some x => Some (k * x)%Q | None => None end.

(** Equality of cells up to the representation of the rational. *)
Definition cell_equiv (a b : cell) : Prop :=
  match a, b with
  | Some x, Some y => (x == y)%Q
  | None, None => True
  | _, _ => False
  end.

Abbreviation column := (list (option Q)).

(** *** Forward and backward fill of one column *)

(** [ffill]: every NaN takes the last value seen before it; [last] is the
    running value, NaN at the start. *)
Fixpoint ffill_from (last : cell) (vs : column) : column :=
  match vs with
  | [] => []
  | Some q :: r => Some q :: ffill_from (Some q) r
  | None :: r => last :: ffill_from last r
  end.

Definition ffill_col (vs : column) : column := ffill_from None vs.

(** [bfill]: every NaN takes the next value after it. *)
Fixpoint bfill_col (vs : column) : column :=
  match vs with
  | [] => []
  | v :: r =>
      let r' := bfill_col r in
      (if isna v then hd None r' else v) :: r'
  end.

(** ** Series and frames *)

(** A pandas Series: a date index and one column of the same length. *)
Record Series := mkSeries { s_index : list Z; s_values : column }.

(** A pandas DataFrame: a date index and named columns, in column order. *)
Record DataFrame := mkDF { df_index : list Z; df_columns : list (string * column) }.

Definition col_names (df : DataFrame) : list string := map fst (df_columns df).

(** [df.empty]: some axis has length zero. *)
Definition df_empty (df : DataFrame) : bool :=
  Nat.eqb (length (df_index df)) 0 || Nat.eqb (length (df_columns df)) 0.

Definition series_empty (s : Series) : bool := Nat.eqb (length (s_index s)) 0.

(** [name in df.columns] *)
Definition has_column (name : string) (df : DataFrame) : bool :=
  existsb (String.eqb name) (col_names df).

Fixpoint assoc_get {A} (name : string) (kvs : list (string * A)) : option A :=
  match kvs with
  | [] => None
  | (k, v) :: r => if String.eqb name k then Some v else assoc_get name r
  end.

(** [df[name]] *)
Definition get_column (name : string) (df : DataFrame) : option column :=
  assoc_get name (df_columns df).

(** Replace the value of an existing key in place, or append a new key. *)
Fixpoint assoc_set {A} (name : string) (v : A) (kvs : list (string * A))
  : list (string * A) :=
  match kvs with
  | [] => [(name, v)]
  | (k, w) :: r =>
      if String.eqb name k then (k, v) :: r else (k, w) :: assoc_set name v r
  end.

(** [df[name] = vs] for a column [vs] on the frame's own index. *)
Definition set_column (name : string) (vs : column) (df : DataFrame) : DataFrame :=
  mkDF (df_index df) (assoc_set name vs (df_columns df)).

(** [df[name] = c] for a scalar [c]: broadcast over the index. *)
Definition set_scalar (name : string) (c : cell) (df : DataFrame) : DataFrame :=
  set_column name (replicate (length (df_index df)) c) df.

(** [df.rename(columns=mapping)]: labels without an entry are kept. *)
Definition rename_columns (mapping : list (string * string)) (df : DataFrame)
  : DataFrame :=
  mkDF (df_index df)
       (map (fun c => (default (fst c) (assoc_get (fst c) mapping), snd c))
            (df_columns df)).

(** [df.dropna(axis=1, how='all')] *)
Definition dropna_all_columns (df : DataFrame) : DataFrame :=
  mkDF (df_index df)
       (List.filter (fun c => negb (forallb isna (snd c))) (df_columns df)).

Definition map_columns (f : column -> column) (df : DataFrame) : DataFrame :=
  mkDF (df_index df) (map (fun c => (fst c, f (snd c))) (df_columns df)).

Definition ffill : DataFrame -> DataFrame := map_columns ffill_col.
Definition bfill : DataFrame -> DataFrame := map_columns bfill_col.

(** *** Row selection *)

(** Boolean-mask selection [values[mask]]. *)
Fixpoint select {A} (mask : list bool) (l : list A) : list A :=
  match mask, l with
  | b :: m, x :: r => if b then x :: select m r else select m r
  | _, _ => []
  end.

Definition select_rows (p : Z -> bool) (s : Series) : Series :=
  let mask := map p (s_index s) in
  mkSeries (select mask (s_index s)) (select mask (s_values s)).

Definition select_rows_df (p : Z -> bool) (df : DataFrame) : DataFrame :=
  let mask := map p (df_index df) in
  mkDF (select mask (df_index df))
       (map (fun c => (fst c, select mask (snd c))) (df_columns df)).

(** [index.min()] and [index.max()]; [None] is NaT, on an empty index. *)
Definition index_min (idx : list Z) : option Z :=
  match idx with [] => None | d :: r => Some (fold_right Z.min d r) end.

Definition index_max (idx : list Z) : option Z :=
  match idx with [] => None | d :: r => Some (fold_right Z.max d r) end.

(** [(index >= lo) & (index <= hi)]; a comparison with NaT is false. *)
Definition in_range (lo hi : option Z) (d : Z) : bool :=
  match lo, hi with
  | Some l, Some h => (l <=? d)%Z && (d <=? h)%Z
  | _, _ => false
  end.

(** *** Sorting by the index *)

Fixpoint insert_by_date (x : Z * nat) (l : list (Z * nat)) : list (Z * nat) :=
  match l with
  | [] => [x]
  | y :: r => if (fst x <? fst y)%Z then x :: y :: r else y :: insert_by_date x r
  end.

(** The row positions in ascending date order; rows with the same date keep
    their relative order. *)
Definition argsort (idx : list Z) : list (Z * nat) :=
  fold_right insert_by_date [] (combine idx (seq 0 (length idx))).

Definition take_rows (perm : list (Z * nat)) (vs : column) : column :=
  map (fun p => default None (vs !! snd p)) perm.

(** [df.sort_index()] *)
Definition sort_index (df : DataFrame) : DataFrame :=
  let perm := argsort (df_index df) in
  mkDF (map fst perm)
       (map (fun c => (fst c, take_rows perm (snd c))) (df_columns df)).

(** *** Re-indexing with forward fill *)

(** [index.get_indexer([t], method='pad')] on an increasing index: the
    position of the last label not after [t].  pandas raises on an index that
    is not monotonic or has duplicates; callers pass increasing indexes. *)
Fixpoint pad_from (i : nat) (last : option nat) (idx : list Z) (t : Z)
  : option nat :=
  match idx with
  | [] => last
  | d :: r => if (d <=? t)%Z then pad_from (S i) (Some i) r t else last
  end.

Definition get_indexer_pad (idx : list Z) (t : Z) : option nat :=
  pad_from 0 None idx t.

(** The value at an indexer position; position -1 gives NaN. *)
Definition take_cell (vs : column) (p : option nat) : cell :=
  match p with
  | Some i => default None (vs !! i)
  | None => None
  end.

(** [s.reindex(target, method='ffill')] *)
Definition reindex_ffill (s : Series) (target : list Z) : Series :=
  mkSeries target
    (map (fun t => take_cell (s_values s) (get_indexer_pad (s_index s) t)) target).

(** [s.resample('D').ffill()]: one row per day from the first to the last
    label, each carrying the last observation not after that day. *)
Definition resample_D_ffill (s : Series) : Series :=
  match index_min (s_index s), index_max (s_index s) with
  | Some lo, Some hi =>
      reindex_ffill s (seqZ lo (hi - lo + 1)%Z)
  | _, _ => s
  end.

(** ** Rolling-window kernels

    [Series.rolling(window, min_periods).mean()] and [.std()] run pandas'
    sliding-window kernels: one accumulator is carried from window to window,
    the observations that leave the window are removed from it and those that
    enter are added.  With exact arithmetic the Kahan compensation terms of
    the kernels are identically zero, and their shortcut for a window of
    identical values returns what the division returns; both are left out. *)

Definition Qltb (x y : Q) : bool := negb (Qle_bool y x).

(** [values[a:b]] *)
Definition slice {A} (l : list A) (a b : nat) : list A := take (b - a) (drop a l).

(** Bounds of the fixed window that ends at row [i]: rows [start .. end-1]. *)
Definition win_start (W i : nat) : nat := i + 1 - W.
Definition win_end (i : nat) : nat := i + 1.

(** An accumulator with its add, remove and read-out operations. *)
Record Aggregator := mkAgg {
  agg_state : Type;
  agg_fresh : agg_state;
  agg_add : cell -> agg_state -> agg_state;
  agg_remove : cell -> agg_state -> agg_state;
  agg_calc : agg_state -> cell
}.

Definition add_all (g : Aggregator) (st : agg_state g) (vs : column) : agg_state g :=
  fold_left (fun s v => agg_add g v s) vs st.

Definition remove_all (g : Aggregator) (st : agg_state g) (vs : column) : agg_state g :=
  fold_left (fun s v => agg_remove g v s) vs st.

(** One iteration of the kernel loop, for row [i], from the accumulator left
    by row [i-1]. *)
Definition roll_step (g : Aggregator) (values : column) (W : nat)
  (st : agg_state g) (i : nat) : agg_state g :=
  let s := win_start W i in
  let e := win_end i in
  if Nat.eqb i 0 || (win_end (i - 1) <=? s)%nat then
    add_all g (agg_fresh g) (slice values s e)
  else
    add_all g
      (remove_all g st (slice values (win_start W (i - 1)) s))
      (slice values (win_end (i - 1)) e).

Fixpoint roll_from (g : Aggregator) (values : column) (W : nat)
  (st : agg_state g) (rows : list nat) : column :=
  match rows with
  | [] => []
  | i :: r =>
      let st' := roll_step g values W st i in
      agg_calc g st' :: roll_from g values W st' r
  end.

Definition roll (g : Aggregator) (values : column) (W : nat) : column :=
  roll_from g values W (agg_fresh g) (seq 0 (length values)).

(** *** Mean *)

Record mean_state := mkMean { nobs : Z; sum_x : Q; neg_ct : Z }.

Definition add_mean (val : cell) (st : mean_state) : mean_state :=
  match val with
  | Some v =>
      mkMean (nobs st + 1) (sum_x st + v)
             (if Qltb v 0 then neg_ct st + 1 else neg_ct st)
  | None => st
  end.

Definition remove_mean (val : cell) (st : mean_state) : mean_state :=
  match val with
  | Some v =>
      mkMean (nobs st - 1) (sum_x st - v)
             (if Qltb v 0 then neg_ct st - 1 else neg_ct st)
  | None => st
  end.

Definition calc_mean (minp : Z) (st : mean_state) : cell :=
  if (minp <=? nobs st)%Z && (0 <? nobs st)%Z then
    let result := (sum_x st / inject_Z (nobs st))%Q in
    if (neg_ct st =? 0)%Z && Qltb result 0 then Some 0%Q
    else if (neg_ct st =? nobs st)%Z && Qltb 0 result then Some 0%Q
    else Some result
  else None.

Definition mean_agg (minp : Z) : Aggregator :=
  mkAgg mean_state (mkMean 0 0 0) add_mean remove_mean (calc_mean minp).

(** [values.rolling(window=W, min_periods=minp).mean()] *)
Definition rolling_mean (W : nat) (minp : Z) (values : column) : column :=
  roll (mean_agg minp) values W.

(** *** Variance and standard deviation *)

Record var_state := mkVar { v_nobs : Z; mean_x : Q; ssqdm_x : Q }.

Definition add_var (val : cell) (st : var_state) : var_state :=
  match val with
  | Some v =>
      let n := (v_nobs st + 1)%Z in
      let delta := (v - mean_x st)%Q in
      let m := (mean_x st + delta / inject_Z n)%Q in
      mkVar n m (ssqdm_x st + (v - mean_x st) * (v - m))%Q
  | None => st
  end.

Definition remove_var (val : cell) (st : var_state) : var_state :=
  match val with
  | Some v =>
      let n := (v_nobs st - 1)%Z in
      if (n =? 0)%Z then mkVar 0 0 0
      else
        let delta := (v - mean_x st)%Q in
        let m := (mean_x st - delta / inject_Z n)%Q in
        mkVar n m (ssqdm_x st - (v - mean_x st) * (v - m))%Q
  | None => st
  end.

Definition calc_var (minp ddof : Z) (st : var_state) : cell :=
  if (minp <=? v_nobs st)%Z && (ddof <? v_nobs st)%Z then
    if (v_nobs st =? 1)%Z then Some 0%Q
    else Some (ssqdm_x st / inject_Z (v_nobs st - ddof))%Q
  else None.

Definition var_agg (minp ddof : Z) : Aggregator :=
  mkAgg var_state (mkVar 0 0 0) add_var remove_var (calc_var minp ddof).

Definition rolling_var (W : nat) (minp : Z) (values : column) : column :=
  roll (var_agg minp 1) values W.

(** The square root of a float is not a rational operation: the development
    is parametric in it. *)
Section Std.

Variable sqrtQ : Q -> Q.

(** The root of the variance, with a negative variance read as zero. *)
Definition zsqrt (c : cell) : cell :=
  match c with
  | Some x => if Qltb x 0 then Some 0%Q else Some (sqrtQ x)
  | None => None
  end.

(** [values.rolling(window=W, min_periods=minp).std()], sample deviation. *)
Definition rolling_std (W : nat) (minp : Z) (values : column) : column :=
  map zsqrt (rolling_var W minp values).

(** *** The indicator columns of [plot_equity_bond_spread] *)

Definition window : nat := 5 * 252.

(** ['2010-01-01'] as a day ordinal (days since 1970-01-01). *)
Definition date_2010_01_01 : Z := 14610.

(** [a + k * b] and [a - k * b] on whole columns. *)
Definition band_plus (k : Q) (a b : column) : column :=
  zip_with cell_add a (map (cell_scale k) b).

Definition band_minus (k : Q) (a b : column) : column :=
  zip_with cell_sub a (map (cell_scale k) b).

(** Steps 2 and 3 of [plot_equity_bond_spread]: the frame that is drawn.
    [None] is the [KeyError] of a missing column, caught by the function's
    [try]: nothing is drawn. *)
Definition plot_equity_bond_spread (stock_ebs_lg_df : DataFrame)
  : option DataFrame :=
  let df0 := select_rows_df (fun d => (date_2010_01_01 <=? d)%Z) stock_ebs_lg_df in
  v ← get_column "股债利差" df0;
  let df1 := set_column "5年均线" (rolling_mean window 1 v) df0 in
  v ← get_column "股债利差" df1;
  let df2 := set_column "5年标准差" (rolling_std window 1 v) df1 in
  m ← get_column "5年均线" df2; s ← get_column "5年标准差" df2;
  let df3 := set_column "+1 STD" (band_plus 1 m s) df2 in
  m ← get_column "5年均线" df3; s ← get_column "5年标准差" df3;
  let df4 := set_column "-1 STD" (band_minus 1 m s) df3 in
  m ← get_column "5年均线" df4; s ← get_column "5年标准差" df4;
  let df5 := set_column "+2 STD" (band_plus 2 m s) df4 in
  m ← get_column "5年均线" df5; s ← get_column "5年标准差" df5;
  Some (set_column "-2 STD" (band_minus 2 m s) df5).

End Std.

(** ** The panel pipeline of [AKShareSummer.py] *)

(** Warnings and errors written to the console or the log. *)
Inductive event :=
| ErrNoData               (* "Error: No data was downloaded ..." *)
| ErrDownload             (* "An error occurred during download ..." *)
| WarnRemovedColumns (cols : list string)
| WarnBasisMissing        (* "Warning: Could not calculate basis ..." *)
| WarnClipEmpty           (* the clipped yield series is empty, resampling *)
| WarnNoMatchingYield     (* no yield data in range, default value used *)
| WarnNoYieldData         (* no yield data at all, default value used *)
| WarnYieldColumnMissing  (* yield column absent from the final panel *)
| ErrSave                 (* "An error occurred while saving the file ..." *)
| WarnBondFetchEmpty
| WarnBondColumnMissing
| WarnBondAllNaN
| ErrBondFetch
| WarnNoBuffettFile
| WarnNoSpreadFile
| ErrDownloadFailed       (* run_market_analysis: cannot continue *)
| ErrPrepareFailed
| ErrJsonSave
| ErrReportSave
| ErrAnalysisFailed.

(** Files the pipeline writes. *)
Inductive artifact :=
| PanelCsv | MarketDataLatestJson | MarketDataDatedJson
| AnalysisJson | AnalysisMarkdown.

(** A result together with what was printed on the way. *)
Definition Logged (A : Type) : Type := A * list event.

Definition ret {A} (x : A) : Logged A := (x, []).
Definition tell (e : event) : Logged unit := (tt, [e]).
Definition bind {A B} (c : Logged A) (k : A -> Logged B) : Logged B :=
  let r := k (fst c) in (fst r, snd c ++ snd r).

Notation "'do' x <- c ;; k" := (bind c (fun x => k))
  (at level 10, x name, c at level 99, k at level 200).

Definition tickers_to_download : list (string * string) :=
  [ ("GC=F", "GOLD_spot_price"); ("MGC=F", "GOLD_near_month_future");
    ("SI=F", "SILVER_future"); ("PL=F", "PLATINUM_future");
    ("HG=F", "COPPER_future"); ("ALI=F", "ALUMINUM_future");
    ("CL=F", "OIL_price"); ("NG=F", "NATURAL_GAS_future");
    ("ZC=F", "CORN_future"); ("ZS=F", "SOYBEANS_future");
    ("ZW=F", "WHEAT_future"); ("LE=F", "LIVE_CATTLE_future");
    ("HE=F", "LEAN_HOGS_future"); ("BTC-USD", "BTC_price");
    ("ETH-USD", "ETH_price"); ("^GSPC", "SP500_close");
    ("^IXIC", "NASDAQ_close"); ("^VIX", "VIX_close");
    ("000001.SS", "Shanghai_Composite_Index");
    ("399001.SZ", "Shenzhen_Component_Index");
    ("000300.SS", "CSI_300_Index"); ("DX-Y.NYB", "US_Dollar_Index");
    ("CNY=X", "USD_CNY_exchange_rate"); ("^TNX", "US_10Y_Treasury_Yield");
    ("TLT", "Long_Term_Treasury_ETF"); ("HYG", "High_Yield_Bond_ETF");
    ("DBC", "Commodity_Index_ETF") ].

Definition spot_col : string := "GOLD_spot_price".
Definition near_col : string := "GOLD_near_month_future".
Definition basis_col : string := "GOLD_basis_spot_vs_near".
Definition yield_col : string := "China_10Y_Treasury_Yield".

(** The fallback yield, 2.5 percent. *)
Definition default_yield : Q := 5 # 2.

(** *** The auxiliary yield series *)

(** A year of daily rows that all carry the default. *)
Definition create_default_bond_data (today : Z) : Series :=
  mkSeries (seqZ (today - 364) 365) (replicate 365 (Some default_yield)).

(** [fetched] is what [ak.bond_zh_us_rate] returned, [None] when it raised;
    the frame's index holds its date column. *)
Definition get_china_bond_yield (today : Z) (fetched : option DataFrame)
  : Logged Series :=
  match fetched with
  | None => do _ <- tell ErrBondFetch ;; ret (create_default_bond_data today)
  | Some bond_data =>
      if df_empty bond_data then
        do _ <- tell WarnBondFetchEmpty ;; ret (create_default_bond_data today)
      else
        match get_column "中国国债收益率10年" bond_data with
        | None => do _ <- tell WarnBondColumnMissing ;; ret (create_default_bond_data today)
        | Some vs =>
            let keep := map notna vs in
            let china_10y :=
              mkSeries (select keep (df_index bond_data)) (select keep vs) in
            if series_empty china_10y then
              do _ <- tell WarnBondAllNaN ;; ret (create_default_bond_data today)
            else ret china_10y
        end
  end.

(** *** Step 4: cleaning *)

Definition clean_panel (data : DataFrame) : Logged DataFrame :=
  let main_df := sort_index (rename_columns tickers_to_download data) in
  let kept := dropna_all_columns main_df in
  let removed_cols :=
    List.filter (fun n => negb (has_column n kept)) (col_names main_df) in
  do _ <- (match removed_cols with
           | [] => ret tt
           | _ => tell (WarnRemovedColumns removed_cols)
           end) ;;
  ret (bfill (ffill kept)).

(** *** Step 5: the basis *)

Definition add_basis (main_df : DataFrame) : Logged DataFrame :=
  match get_column spot_col main_df, get_column near_col main_df with
  | Some spot, Some near =>
      ret (set_column basis_col (zip_with cell_sub spot near) main_df)
  | _, _ => do _ <- tell WarnBasisMissing ;; ret main_df
  end.

(** *** Step 6: the auxiliary yield column *)

Definition clip_to_panel (main_df : DataFrame) (s : Series) : Series :=
  select_rows (in_range (index_min (df_index main_df))
                        (index_max (df_index main_df))) s.

Definition add_china_yield (china_bond_data : Series) (main_df : DataFrame)
  : Logged DataFrame :=
  if negb (series_empty china_bond_data) then
    do filtered_china_data <-
      (let filtered := clip_to_panel main_df china_bond_data in
       if series_empty filtered then
         do _ <- tell WarnClipEmpty ;;
         ret (clip_to_panel main_df (resample_D_ffill china_bond_data))
       else ret filtered) ;;
    if negb (series_empty filtered_china_data) then
      let aligned_china_data :=
        reindex_ffill filtered_china_data (df_index main_df) in
      ret (set_column yield_col (s_values aligned_china_data) main_df)
    else
      do _ <- tell WarnNoMatchingYield ;;
      ret (set_scalar yield_col (Some default_yield) main_df)
  else
    do _ <- tell WarnNoYieldData ;;
    ret (set_scalar yield_col (Some default_yield) main_df).

(** The closing fill of the whole panel and the last check of the column. *)
Definition final_fill (main_df : DataFrame) : Logged DataFrame :=
  let filled := bfill (ffill main_df) in
  if has_column yield_col filled then ret filled
  else
    do _ <- tell WarnYieldColumnMissing ;;
    ret (set_scalar yield_col (Some default_yield) filled).

(** *** The whole function *)

(** What the outside world answers during one run. *)
Record Env := mkEnv {
  yf_download : option DataFrame;   (* closing prices; [None]: the call raised *)
  bond_zh_us_rate : option DataFrame;
  today : Z;
  to_csv_ok : bool;                 (* writing the panel file succeeds *)
  buffett_file : option DataFrame;  (* [None]: no file, or unreadable *)
  spread_file : option DataFrame;
  json_latest_ok : bool;
  json_dated_ok : bool;
  analysis_ok : bool;               (* the generated text is usable *)
  analysis_json_ok : bool;
  analysis_md_ok : bool
}.

(** Steps 4 to 6 on downloaded prices. *)
Definition build_panel (env : Env) (data : DataFrame) : Logged DataFrame :=
  do main_df <- clean_panel data ;;
  do main_df <- add_basis main_df ;;
  do china_bond_data <- get_china_bond_yield (today env) (bond_zh_us_rate env) ;;
  do main_df <- add_china_yield china_bond_data main_df ;;
  final_fill main_df.

(** The returned frame ([None] for Python's [None]), and the files written.
    The downloaded frame is represented by its closing prices, one column per
    ticker on the shared date index, so [full_data.empty] is read off that
    frame.  A failed write is taken to leave no file. *)
Definition download_gold_training_data (env : Env)
  : Logged (option DataFrame * list artifact) :=
  match yf_download env with
  | None => do _ <- tell ErrDownload ;; ret (None, [])
  | Some full_data =>
      if df_empty full_data then do _ <- tell ErrNoData ;; ret (None, [])
      else
        do main_df <- build_panel env full_data ;;
        if to_csv_ok env then ret (Some main_df, [PanelCsv])
        else do _ <- tell ErrSave ;; ret (None, [])
  end.

(** ** The snapshot: [prepare_market_data_for_analysis] *)

(** The Python values the snapshot is made of. *)
#[warnings="-register-all"] Inductive pyval :=
| PyNone
| PyFloat (c : cell)
| PyDate (d : Z)                      (* a day rendered as '%Y-%m-%d' *)
| PyDict (items : list (string * pyval)).

(** [s.endswith(suffix)] *)
Definition endswith (suffix s : string) : bool :=
  let n := String.length s in
  let m := String.length suffix in
  (m <=? n)%nat && String.eqb (substring (n - m) m s) suffix.

(** [df.iloc[-1]]: the last row, labelled by the columns. *)
Definition iloc_last (df : DataFrame) : list (string * cell) :=
  map (fun c => (fst c, default None (list.last (snd c)))) (df_columns df).

(** [float(row[col]) if col in row else None] *)
Definition float_or_none (row : list (string * cell)) (col : string) : pyval :=
  match assoc_get col row with
  | Some c => PyFloat c
  | None => PyNone
  end.

(** The fields of the two groups, each with the column it is read from. *)
Definition buffett_fields : list (string * string) :=
  [ ("indicator_value", "巴菲特指标");
    ("total_market_cap", "总市值");
    ("gdp", "GDP");
    ("total_percentile", "总历史分位数");
    ("close_price", "收盘价") ].

Definition spread_fields : list (string * string) :=
  [ ("spread_value", "股债利差");
    ("five_year_ma", "5年均线");
    ("five_year_std", "5年标准差");
    ("plus_1_std", "+1 STD");
    ("minus_1_std", "-1 STD");
    ("plus_2_std", "+2 STD");
    ("minus_2_std", "-2 STD");
    ("csi300_index", "沪深300指数") ].

(** The dict literal of a group: the date of the last row, then one entry
    per field. *)
Definition group_of (fields : list (string * string)) (table : DataFrame) (d : Z)
  : pyval :=
  let latest := iloc_last table in
  PyDict (("date", PyDate d)
          :: map (fun f => (fst f, float_or_none latest (snd f))) fields).

Definition buffett_group : DataFrame -> Z -> pyval := group_of buffett_fields.
Definition spread_group : DataFrame -> Z -> pyval := group_of spread_fields.

(** [market_data[key] = group(table)] when the table is given and not empty. *)
Definition add_group (key : string) (group : DataFrame -> Z -> pyval)
  (table : option DataFrame) (market_data : list (string * pyval))
  : list (string * pyval) :=
  match table with
  | Some t =>
      if df_empty t then market_data
      else
        match list.last (df_index t) with
        | Some d => assoc_set key (group t d) market_data
        | None => market_data      (* not reached: the index is not empty *)
        end
  | None => market_data
  end.

Definition prepare_market_data_for_analysis
  (df buffett_df spread_df : option DataFrame) : option (list (string * pyval)) :=
  match df with
  | None => None
  | Some df =>
      if df_empty df then None
      else
        match list.last (df_index df) with
        | None => None             (* not reached: the index is not empty *)
        | Some d =>
            let latest_data := iloc_last df in
            let market_data :=
              [ ("latest_date", PyDate d);
                ("latest_values",
                 PyDict (map (fun kv => (fst kv, PyFloat (snd kv)))
                           (List.filter
                              (fun kv => negb (endswith "_pct_change" (fst kv)))
                              latest_data))) ] in
            Some (add_group "equity_bond_spread" spread_group spread_df
                    (add_group "buffett_indicator" buffett_group buffett_df
                       market_data))
        end
  end.

(** ** The whole run: [run_market_analysis] *)





(** ** Intermediate stages of the pipeline *)

(** The panel after the merge and the drop of empty columns, before any
    fill. *)
Definition merged_panel (data : DataFrame) : DataFrame :=
  dropna_all_columns (sort_index (rename_columns tickers_to_download data)).


(** ** Rolling statistics, in the words of the specification *)

(** The defined values of a window, in order. *)
Fixpoint observations (w : column) : list Q :=
  match w with
  | [] => []
  | Some q :: r => q :: observations r
  | None :: r => observations r
  end.

Definition Qsum (l : list Q) : Q := fold_right Qplus 0%Q l.

(** The arithmetic mean of the observations of a window; NaN when there is
    none. *)
Definition arithmetic_mean (w : column) : cell :=
  match observations w with
  | [] => None
  | obs => Some (Qsum obs / inject_Z (Z.of_nat (length obs)))%Q
  end.


Definition count_neg (l : list Q) : nat :=
  length (List.filter (fun q => Qltb q 0) l).

(** What the mean accumulator holds when it stands for window [w]. *)
Definition mean_inv (st : mean_state) (w : column) : Prop :=
  nobs st = Z.of_nat (length (observations w)) /\
  (sum_x st == Qsum (observations w))%Q /\
  neg_ct st = Z.of_nat (count_neg (observations w)).

(** ** The auxiliary series, in the words of the specification *)

(** [index.is_monotonic_increasing and index.is_unique] *)
Fixpoint is_strictly_increasing (idx : list Z) : bool :=
  match idx with
  | [] => true
  | d :: r =>
      match r with
      | [] => true
      | e :: _ => (d <? e)%Z && is_strictly_increasing r
      end
  end.

(** The number of labels at or before [t]. *)
Definition count_le (idx : list Z) (t : Z) : nat :=
  length (List.filter (fun d => (d <=? t)%Z) idx).

(** [v] is the last known value of [s] at date [t]: the value observed at the
    latest observation date [d] that is not after [t]. *)
Definition is_last_known (s : Series) (t d : Z) (v : cell) : Prop :=
  (exists p, s_index s !! p = Some d /\ s_values s !! p = Some v) /\
  (d <= t)%Z /\
  forall p' d', s_index s !! p' = Some d' -> (d' <= t)%Z -> (d' <= d)%Z.

(** The yield column of the panel that leaves step 6 and the closing fill. *)
Definition reconciled_yield (china : Series) (main_df : DataFrame) : option column :=
  get_column yield_col (fst (final_fill (fst (add_china_yield china main_df)))).

(** The statement that the dates before the first observation in range stay
    undefined in that panel. *)
Definition leading_dates_left_undefined (china : Series) (main_df : DataFrame) : Prop :=
  forall (col : column) (d0 : Z) (i : nat) (t : Z),
    reconciled_yield china main_df = Some col ->
    head (s_index (clip_to_panel main_df china)) = Some d0 ->
    df_index main_df !! i = Some t ->
    (t < d0)%Z ->
    col !! i = Some None.

(** ** The snapshot, in the words of the specification *)

(** The rows are in ascending date order. *)
Fixpoint is_ascending (idx : list Z) : bool :=
  match idx with
  | [] => true
  | d :: r =>
      match r with
      | [] => true
      | e :: _ => (d <=? e)%Z && is_ascending r
      end
  end.


(** ** Aborts of the run, in the words of the specification *)



(** ** Example inputs *)

(** Five days of gold prices with a gap on the third day, and a ticker
    without any price. *)
Definition c4_data : DataFrame :=
  mkDF [1; 2; 3; 4; 5]%Z
       [ ("GC=F", [Some 7%Q; Some 8%Q; None; Some 9%Q; Some 10%Q]);
         ("SI=F", [None; None; None; None; None]) ].

(** A spread table of three trading days in 2010. *)
Definition spread_table : DataFrame :=
  mkDF [14613; 14614; 14615]%Z
       [ ("股债利差", [Some (3 # 100)%Q; Some (5 # 100)%Q; Some (4 # 100)%Q]);
         ("沪深300指数", [Some 3500%Q; Some 3520%Q; Some 3490%Q]) ].

(** A stand-in for the square root, for evaluation only. *)
Definition sqrt_stub (q : Q) : Q := q.

Definition spread_chart : DataFrame :=
  default (mkDF [] []) (plot_equity_bond_spread sqrt_stub spread_table).




(** A panel of three days and a yield series that starts after its end. *)
Definition late_yield : Series :=
  mkSeries [10; 12]%Z [Some 3%Q; Some (31 # 10)%Q].

Definition small_panel : DataFrame :=
  mkDF [1; 2; 3]%Z [ ("OIL_price", [Some 70%Q; Some 71%Q; Some 72%Q]) ].

(** A panel of five days and a yield series observed on its third and fourth
    day only. *)
Definition five_day_panel : DataFrame :=
  mkDF [1; 2; 3; 4; 5]%Z
       [ ("OIL_price", [Some 70%Q; Some 71%Q; Some 72%Q; Some 73%Q; Some 74%Q]) ].

Definition mid_yield : Series :=
  mkSeries [3; 4]%Z [Some (27 # 10)%Q; Some (28 # 10)%Q].

(** An indicator table whose rows are stored most recent first. *)
Definition descending_table : DataFrame :=
  mkDF [20; 10]%Z
       [ ("巴菲特指标", [Some (9 # 10)%Q; Some (8 # 10)%Q]);
         ("总市值", [Some 90%Q; Some 80%Q]);
         ("GDP", [Some 100%Q; Some 100%Q]) ].



(** A run over five days of oil prices with a yield table observed on the
    third and fourth day only. *)
Definition mid_env : Env :=
  mkEnv (Some (mkDF [1; 2; 3; 4; 5]%Z
                 [ ("CL=F", [Some 70%Q; Some 71%Q; Some 72%Q; Some 73%Q; Some 74%Q]) ]))
        (Some (mkDF [3; 4]%Z
                 [ ("中国国债收益率10年", [Some (27 # 10)%Q; Some (28 # 10)%Q]) ]))
        5%Z true None None true true true true true.

(** ** The rolling deviation, in plain terms *)





(** ** More example inputs *)

(** A yield series observed before and after the five-day panel, not inside
    it. *)
Definition straddling_yield : Series :=
  mkSeries [-3; 9]%Z [Some (26 # 10)%Q; Some (29 # 10)%Q].

(** [table is not None and not table.empty] *)
Definition table_available (table : option DataFrame) : bool :=
  match table with
  | Some t => negb (df_empty t)
  | None => false
  end.

(** ** The columns of the report table: [save_market_analysis] *)

Definition priority_columns : list string :=
  [ "China_10Y_Treasury_Yield"; "US_10Y_Treasury_Yield"; "Shanghai_Composite_Index";
    "CSI_300_Index"; "Shenzhen_Component_Index"; "GOLD_spot_price"; "OIL_price" ].

(** [col in columns] on a list of names. *)
Definition name_in (col : string) (columns : list string) : bool :=
  existsb (String.eqb col) columns.

(** [columns.remove(col)]: the first occurrence goes.  The caller has
    checked that there is one. *)
Fixpoint list_remove (col : string) (columns : list string) : list string :=
  match columns with
  | [] => []
  | c :: r => if String.eqb col c then r else c :: list_remove col r
  end.

(** The loop over the priority columns, on the pair
    [(ordered_columns, display_columns)]. *)
Fixpoint priority_loop (priority ordered_columns display_columns : list string)
  : list string * list string :=
  match priority with
  | [] => (ordered_columns, display_columns)
  | col :: rest =>
      if name_in col display_columns then
        priority_loop rest (ordered_columns ++ [col]) (list_remove col display_columns)
      else priority_loop rest ordered_columns display_columns
  end.

(** [ordered_columns] after the loop and the [extend]. *)
Definition ordered_columns (columns : list string) : list string :=
  let r := priority_loop priority_columns [] columns in
  fst r ++ snd r.

(** The columns of the table that is written, for a frame with the given
    columns and at least one row in the last month: the yield column is put
    in front if the ordering lost it, and names that are no column are
    left out. *)
Definition valid_columns (columns : list string) : list string :=
  let ordered := ordered_columns columns in
  let ordered :=
    if negb (name_in yield_col ordered) && name_in yield_col columns
    then yield_col :: ordered else ordered in
  List.filter (fun col => name_in col columns) ordered.

(** A spread table that starts before 2010: 2009-12-31, 2010-01-04 and
    2010-01-05. *)
Definition early_spread_table : DataFrame :=
  mkDF [14609; 14613; 14614]%Z
       [ ("股债利差", [Some (2 # 100)%Q; Some (3 # 100)%Q; Some (5 # 100)%Q]);
         ("沪深300指数", [Some 3400%Q; Some 3500%Q; Some 3520%Q]) ].

(** * Properties *)


(** ** Forward and backward fill *)

Lemma ffill_from_length (vs : column) : forall a, length (ffill_from a vs) = length vs.
Proof.
  induction vs as [|[q|] r IH]; intros a; simpl; auto.
Qed.

Lemma bfill_col_length (vs : column) : length (bfill_col vs) = length vs.
Proof.
  induction vs as [|v r IH]; simpl; auto.
Qed.

(** A defined entry is kept by the forward fill. *)
Lemma ffill_from_keeps (vs : column) : forall a i q,
  vs !! i = Some (Some q) -> ffill_from a vs !! i = Some (Some q).
Proof.
  induction vs as [|[x|] r IH]; intros a [|i] q H; simpl in *; try discriminate; auto.
Qed.

(** An undefined entry at the head of a run takes the running value. *)
Lemma ffill_from_run (vs : column) : forall a i,
  (forall k, k <= i -> vs !! k = Some None) ->
  ffill_from a vs !! i = Some a.
Proof.
  induction vs as [|[x|] r IH]; intros a i H.
  - specialize (H 0 ltac:(lia)). discriminate.
  - specialize (H 0 ltac:(lia)). discriminate.
  - destruct i as [|i]; simpl; [reflexivity|].
    apply IH. intros k Hk. apply (H (S k)). lia.
Qed.

(** An undefined entry takes the most recent defined value before it. *)
Lemma ffill_from_prior (vs : column) : forall a i j q,
  j < i ->
  vs !! j = Some (Some q) ->
  (forall k, j < k <= i -> vs !! k = Some None) ->
  ffill_from a vs !! i = Some (Some q).
Proof.
  induction vs as [|x r IH]; intros a i j q Hji Hj Hrun; [discriminate|].
  destruct i as [|i]; [lia|].
  destruct j as [|j].
  - simpl in Hj. injection Hj as ->. simpl.
    apply ffill_from_run. intros k Hk. apply (Hrun (S k)). lia.
  - assert (Hstep : forall b, ffill_from b r !! i = Some (Some q)).
    { intros b. apply (IH b i j q); [lia|exact Hj|].
      intros k Hk. apply (Hrun (S k)). lia. }
    destruct x; simpl; apply Hstep.
Qed.

(** From the first defined entry on, the forward fill is defined. *)
Lemma ffill_from_defined_after (vs : column) : forall a i j q,
  j <= i -> i < length vs ->
  vs !! j = Some (Some q) ->
  exists w, ffill_from a vs !! i = Some (Some w).
Proof.
  induction vs as [|x r IH]; intros a i j q Hji Hi Hj; [discriminate|].
  destruct j as [|j].
  - simpl in Hj. injection Hj as ->. clear IH.
    destruct i as [|i]; simpl; [eauto|].
    simpl in Hi. assert (Hi' : i < length r) by lia. clear Hi Hji.
    revert q i Hi'. induction r as [|[y|] r IHr]; intros q i Hi; simpl in *; [lia| |].
    + destruct i; simpl; [eauto|]. apply IHr. lia.
    + destruct i; simpl; [eauto|]. apply IHr. lia.
  - destruct i as [|i]; [lia|]. simpl in Hi.
    destruct x; simpl; apply (IH _ i j q); auto; lia.
Qed.

(** A defined entry is kept by the backward fill. *)
Lemma bfill_col_keeps (vs : column) : forall i q,
  vs !! i = Some (Some q) -> bfill_col vs !! i = Some (Some q).
Proof.
  induction vs as [|x r IH]; intros [|i] q H; simpl in *; try discriminate.
  - injection H as ->. reflexivity.
  - auto.
Qed.

(** Before a defined entry, the backward fill is defined. *)
Lemma bfill_col_defined_before (vs : column) : forall i j q,
  i <= j -> vs !! j = Some (Some q) ->
  exists w, bfill_col vs !! i = Some (Some w).
Proof.
  induction vs as [|x r IH]; intros i j q Hij Hj; [discriminate|].
  destruct i as [|i].
  - simpl. destruct x as [y|]; simpl; [eauto|].
    destruct j as [|j]; [discriminate|]. simpl in Hj.
    destruct (IH 0 j q ltac:(lia) Hj) as [w Hw].
    destruct (bfill_col r); simpl in *; [discriminate|].
    injection Hw as ->. eauto.
  - destruct j as [|j]; [lia|]. simpl in *. apply (IH i j q); auto. lia.
Qed.

(** A leading undefined entry takes the first value defined after it. *)
Lemma bfill_col_next (vs : column) : forall i j q,
  i < j ->
  vs !! j = Some (Some q) ->
  (forall k, i <= k < j -> vs !! k = Some None) ->
  bfill_col vs !! i = Some (Some q).
Proof.
  induction vs as [|x r IH]; intros i j q Hij Hj Hrun; [discriminate|].
  destruct j as [|j]; [lia|]. simpl in Hj.
  destruct i as [|i].
  - pose proof (Hrun 0 ltac:(lia)) as H0. simpl in H0. injection H0 as ->. simpl.
    destruct j as [|j].
    + destruct r as [|y r']; [discriminate|]. simpl in Hj. injection Hj as ->. reflexivity.
    + assert (H1 : bfill_col r !! 0 = Some (Some q)).
      { apply (IH 0 (S j) q); [lia|exact Hj|].
        intros k Hk. apply (Hrun (S k)). lia. }
      destruct (bfill_col r); simpl in *; [discriminate|]. injection H1 as ->. reflexivity.
  - simpl. apply (IH i j q); [lia|exact Hj|].
    intros k Hk. apply (Hrun (S k)). lia.
Qed.

(** The closure property: forward fill then backward fill leaves no
    undefined entry in a column that has a defined one. *)
Lemma fill_closure (vs : column) :
  Exists (fun c => c <> None) vs ->
  Forall (fun c => c <> None) (bfill_col (ffill_col vs)).
Proof.
  intros Hex. apply Exists_exists in Hex as [c [Hin Hc]].
  destruct c as [q|]; [|congruence].
  apply list_elem_of_In, list_elem_of_lookup in Hin as [j Hj].
  apply Forall_lookup. intros i c Hi ->.
  assert (Hlen : i < length vs).
  { apply lookup_lt_Some in Hi. rewrite bfill_col_length in Hi.
    unfold ffill_col in Hi. rewrite ffill_from_length in Hi. exact Hi. }
  destruct (le_lt_dec j i) as [Hji|Hij].
  - destruct (ffill_from_defined_after vs None i j q Hji Hlen Hj) as [w Hw].
    apply bfill_col_keeps in Hw. unfold ffill_col in Hi.
    congruence.
  - pose proof (ffill_from_keeps vs None j q Hj) as Hk.
    destruct (bfill_col_defined_before _ i j q ltac:(lia) Hk) as [w Hw].
    unfold ffill_col in Hi. congruence.
Qed.

(** A column without undefined entries is left as it is by both fills. *)
Lemma ffill_from_id (vs : column) : forall a,
  Forall (fun c => c <> None) vs -> ffill_from a vs = vs.
Proof.
  induction vs as [|[x|] r IH]; intros a H; simpl; auto.
  - f_equal. apply IH. by inversion H.
  - inversion H; congruence.
Qed.

Lemma bfill_col_id (vs : column) :
  Forall (fun c => c <> None) vs -> bfill_col vs = vs.
Proof.
  induction vs as [|[x|] r IH]; intros H; simpl; auto.
  - f_equal. apply IH. by inversion H.
  - inversion H; congruence.
Qed.

(** ** The cleaning step *)

Lemma clean_panel_fst (data : DataFrame) :
  fst (clean_panel data) = bfill (ffill (merged_panel data)).
Proof.
  unfold clean_panel, merged_panel.
  destruct (List.filter _ _); reflexivity.
Qed.



Lemma insert_by_date_In (x z : Z * nat) (l : list (Z * nat)) :
  In z (insert_by_date x l) -> z = x \/ In z l.
Proof.
  induction l as [|y r IH]; simpl.
  - intros [<-|[]]. left. reflexivity.
  - destruct (fst x <? fst y)%Z; simpl.
    + intros [<-|H]; [left; reflexivity|right; exact H].
    + intros [<-|H]; [right; left; reflexivity|].
      destruct (IH H) as [->|Hin]; [left; reflexivity|right; right; exact Hin].
Qed.

Lemma insert_by_date_sorted (x : Z * nat) (l : list (Z * nat)) :
  StronglySorted (fun a b => (fst a <= fst b)%Z) l ->
  StronglySorted (fun a b => (fst a <= fst b)%Z) (insert_by_date x l).
Proof.
  induction 1 as [|y r Hs IH Hall]; simpl.
  - constructor; constructor.
  - destruct (fst x <? fst y)%Z eqn:E.
    + apply Z.ltb_lt in E. constructor; [constructor; assumption|].
      constructor; [lia|].
      eapply Forall_impl; [|exact Hall]. intros a Ha. simpl in Ha. lia.
    + apply Z.ltb_ge in E. constructor; [exact IH|].
      apply Forall_forall. intros z Hz.
      destruct (insert_by_date_In x z r Hz) as [->|Hin]; [exact E|].
      apply (proj1 (Forall_forall _ _) Hall z Hin).
Qed.

Lemma sorted_rows_ascending (l : list (Z * nat)) :
  StronglySorted (fun a b => (fst a <= fst b)%Z) l ->
  is_ascending (map fst l) = true.
Proof.
  induction 1 as [|y r Hs IH Hall]; [reflexivity|].
  destruct r as [|z r']; [reflexivity|].
  change (is_ascending (map fst (y :: z :: r')))
    with ((fst y <=? fst z)%Z && is_ascending (map fst (z :: r'))).
  rewrite IH, andb_true_r. apply Z.leb_le.
  inversion Hall; subst. assumption.
Qed.

(** The index of a frame sorted by its index is in ascending order. *)
Lemma sort_index_ascending (df : DataFrame) :
  is_ascending (df_index (sort_index df)) = true.
Proof.
  unfold sort_index. cbn [df_index]. apply sorted_rows_ascending.
  unfold argsort.
  induction (combine (df_index df) (seq 0 (length (df_index df)))) as [|x r IH];
    simpl; [constructor|].
  apply insert_by_date_sorted. exact IH.
Qed.

Lemma forallb_isna_false (vs : column) :
  forallb isna vs = false -> Exists (fun c => c <> None) vs.
Proof.
  induction vs as [|[q|] r IH]; simpl; intros H; [discriminate| |].
  - left. discriminate.
  - right. auto.
Qed.

Lemma merged_panel_columns (data : DataFrame) name vs :
  In (name, vs) (df_columns (merged_panel data)) ->
  Exists (fun c => c <> None) vs /\
  length vs = length (df_index (merged_panel data)).
Proof.
  unfold merged_panel, dropna_all_columns, sort_index. simpl.
  intros H. apply filter_In in H as [Hin Hkeep]. simpl in Hkeep.
  split.
  - apply negb_true_iff in Hkeep. apply forallb_isna_false. exact Hkeep.
  - apply in_map_iff in Hin as [c [Hc _]]. injection Hc as _ <-.
    unfold take_rows. rewrite !length_map. reflexivity.
Qed.

(** The cleaning step, column by column. *)
Lemma clean_panel_column (data : DataFrame) (name : string) (vs : column) :
  In (name, vs) (df_columns (fst (clean_panel data))) ->
  is_ascending (df_index (fst (clean_panel data))) = true /\
  length vs = length (df_index (fst (clean_panel data))) /\
  Forall (fun c => c <> None) vs /\
  exists vs0 : column,
    In (name, vs0) (df_columns (merged_panel data)) /\
    length vs0 = length vs /\
    (forall i q, vs0 !! i = Some (Some q) -> vs !! i = Some (Some q)) /\
    (forall i j q,
        j < i ->
        vs0 !! j = Some (Some q) ->
        (forall k, j < k <= i -> vs0 !! k = Some None) ->
        vs !! i = Some (Some q)).
Proof.
  intros H. rewrite clean_panel_fst in H |- *. split.
  { unfold bfill, ffill, map_columns, merged_panel, dropna_all_columns.
    cbn [df_index]. apply sort_index_ascending. }
  revert H. unfold bfill, ffill, map_columns. simpl.
  rewrite map_map. simpl. intros Hin.
  apply in_map_iff in Hin as [[n vs0] [Heq Hin]]. simpl in Heq.
  injection Heq as -> <-.
  destruct (merged_panel_columns data name vs0 Hin) as [Hex Hlen].
  split; [|split].
  - rewrite bfill_col_length. unfold ffill_col. rewrite ffill_from_length. exact Hlen.
  - apply fill_closure. exact Hex.
  - exists vs0. split; [exact Hin|]. split; [|split].
    + rewrite bfill_col_length. unfold ffill_col. rewrite ffill_from_length. reflexivity.
    + intros i q Hi. apply bfill_col_keeps, ffill_from_keeps. exact Hi.
    + intros i j q Hji Hj Hrun.
      apply bfill_col_keeps. apply (ffill_from_prior vs0 None i j q Hji Hj Hrun).
Qed.

(** C4. After the cleaning step (drop of the entirely empty columns, forward
    fill, backward fill) the panel index is in ascending date order, every
    surviving column has a defined value at every
    date of the panel index, and every entry that was undefined with a defined
    entry before it carries the most recent defined value before it; defined
    entries are unchanged. *)
Theorem C4_alignment_closure (data : DataFrame) (name : string) (vs : column) :
  In (name, vs) (df_columns (fst (clean_panel data))) ->
  is_ascending (df_index (fst (clean_panel data))) = true /\
  length vs = length (df_index (fst (clean_panel data))) /\
  Forall (fun c => c <> None) vs /\
  exists vs0 : column,
    In (name, vs0) (df_columns (merged_panel data)) /\
    length vs0 = length vs /\
    (forall i q, vs0 !! i = Some (Some q) -> vs !! i = Some (Some q)) /\
    (forall i j q,
        j < i ->
        vs0 !! j = Some (Some q) ->
        (forall k, j < k <= i -> vs0 !! k = Some None) ->
        vs !! i = Some (Some q)).
Proof. apply clean_panel_column. Qed.


Lemma C4_alignment_closure_witness :
  In ("GOLD_spot_price", [Some 7%Q; Some 8%Q; Some 8%Q; Some 9%Q; Some 10%Q])
     (df_columns (fst (clean_panel c4_data))) /\
  Forall (fun c => c <> None) [Some 7%Q; Some 8%Q; Some 8%Q; Some 9%Q; Some 10%Q].
Proof.
  assert (Hin : In ("GOLD_spot_price",
                    [Some 7%Q; Some 8%Q; Some 8%Q; Some 9%Q; Some 10%Q])
                   (df_columns (fst (clean_panel c4_data)))).
  { vm_compute. left. reflexivity. }
  split; [exact Hin|].
  exact (proj1 (proj2 (proj2 (C4_alignment_closure c4_data _ _ Hin)))).
Defined.

(** ** The rolling mean *)

Lemma observations_app (a b : column) :
  observations (a ++ b) = observations a ++ observations b.
Proof.
  induction a as [|[q|] r IH]; simpl; auto. by rewrite IH.
Qed.

Lemma Qsum_app (a b : list Q) : (Qsum (a ++ b) == Qsum a + Qsum b)%Q.
Proof.
  induction a as [|q r IH]; simpl.
  - ring.
  - rewrite IH. ring.
Qed.

Lemma count_neg_app (a b : list Q) : count_neg (a ++ b) = count_neg a + count_neg b.
Proof.
  unfold count_neg. rewrite List.filter_app, length_app. reflexivity.
Qed.

Lemma Qltb_lt (x y : Q) : Qltb x y = true <-> (x < y)%Q.
Proof.
  unfold Qltb. rewrite negb_true_iff. split.
  - intros H. apply Qnot_le_lt. intros Hle. apply Qle_bool_iff in Hle. congruence.
  - intros H. destruct (Qle_bool y x) eqn:E; [|reflexivity].
    apply Qle_bool_iff in E. exfalso. apply (Qlt_not_le _ _ H E).
Qed.

Lemma Qltb_ge (x y : Q) : Qltb x y = false <-> (y <= x)%Q.
Proof.
  unfold Qltb. rewrite negb_false_iff. apply Qle_bool_iff.
Qed.

Lemma mean_inv_fresh : mean_inv (mkMean 0 0 0) [].
Proof. repeat split. Qed.

Lemma mean_inv_add (st : mean_state) (w : column) (x : cell) :
  mean_inv st w -> mean_inv (add_mean x st) (w ++ [x]).
Proof.
  intros (Hn & Hs & Hc). unfold mean_inv.
  rewrite observations_app. destruct x as [q|]; simpl.
  - rewrite length_app, Qsum_app, count_neg_app. simpl.
    split; [lia|]. split.
    + rewrite Hs. ring.
    + unfold count_neg at 2. simpl. destruct (Qltb q 0); simpl; lia.
  - rewrite app_nil_r. auto.
Qed.




(** *** Slices *)


Lemma slice_nil {A} (l : list A) (a : nat) : slice l a a = [].
Proof. unfold slice. rewrite Nat.sub_diag. reflexivity. Qed.


(** *** One step of the kernel loop re-establishes the invariant *)


(** *** Reading the accumulator *)

Lemma count_neg_le (l : list Q) : count_neg l <= length l.
Proof. unfold count_neg. apply filter_length_le. Qed.

Lemma count_neg_zero_sum (l : list Q) : count_neg l = 0 -> (0 <= Qsum l)%Q.
Proof.
  induction l as [|q r IH]; simpl; intros H.
  - apply Qle_refl.
  - unfold count_neg in *. simpl in H.
    destruct (Qltb q 0) eqn:E; simpl in H; [discriminate|].
    apply Qltb_ge in E. specialize (IH H).
    replace 0%Q with (0 + 0)%Q by reflexivity. apply Qplus_le_compat; assumption.
Qed.

Lemma count_neg_all_sum (l : list Q) :
  l <> [] -> count_neg l = length l -> (Qsum l < 0)%Q.
Proof.
  induction l as [|q r IH]; intros Hne H; [congruence|].
  pose proof (count_neg_le r) as Hle.
  unfold count_neg in *. simpl in H.
  destruct (Qltb q 0) eqn:E; simpl in H; [|lia].
  apply Qltb_lt in E. simpl.
  destruct r as [|q' r'].
  - simpl. rewrite Qplus_0_r. exact E.
  - assert (Hr : (Qsum (q' :: r') < 0)%Q) by (apply IH; [discriminate|lia]).
    replace 0%Q with (0 + 0)%Q by reflexivity.
    apply Qplus_lt_le_compat; [exact E|]. apply Qlt_le_weak. exact Hr.
Qed.

Lemma calc_mean_spec (st : mean_state) (w : column) :
  mean_inv st w -> cell_equiv (calc_mean 1 st) (arithmetic_mean w).
Proof.
  intros (Hn & Hs & Hc). unfold calc_mean, arithmetic_mean.
  destruct (observations w) as [|q r] eqn:Eobs.
  - simpl in Hn. rewrite Hn. simpl. exact I.
  - set (obs := q :: r) in *.
    assert (Hpos : (0 < nobs st)%Z) by (rewrite Hn; simpl; lia).
    assert (HposQ : (0 < inject_Z (nobs st))%Q).
    { replace 0%Q with (inject_Z 0) by reflexivity. rewrite <- Zlt_Qlt. exact Hpos. }
    replace ((1 <=? nobs st)%Z && (0 <? nobs st)%Z) with true
      by (symmetry; apply andb_true_iff; split; [apply Z.leb_le|apply Z.ltb_lt]; lia).
    destruct ((neg_ct st =? 0)%Z && Qltb (sum_x st / inject_Z (nobs st)) 0) eqn:E1.
    { exfalso. apply andb_true_iff in E1 as [Hz Hlt].
      apply Z.eqb_eq in Hz. apply Qltb_lt in Hlt.
      assert (H0 : (0 <= Qsum obs)%Q) by (apply count_neg_zero_sum; lia).
      apply (Qlt_not_le _ _ Hlt).
      apply Qle_shift_div_l; [exact HposQ|]. rewrite Qmult_0_l, Hs. exact H0. }
    destruct ((neg_ct st =? nobs st)%Z && Qltb 0 (sum_x st / inject_Z (nobs st))) eqn:E2.
    { exfalso. apply andb_true_iff in E2 as [Hz Hlt].
      apply Z.eqb_eq in Hz. apply Qltb_lt in Hlt.
      assert (H0 : (Qsum obs < 0)%Q).
      { apply count_neg_all_sum; [discriminate|]. unfold obs in *. lia. }
      apply (Qlt_not_le _ _ Hlt). apply Qlt_le_weak.
      apply Qlt_shift_div_r; [exact HposQ|]. rewrite Qmult_0_l, Hs. exact H0. }
    simpl. rewrite Hs, Hn. reflexivity.
Qed.

(** *** The whole loop *)




Lemma lookup_map {A B} (f : A -> B) (l : list A) (i : nat) :
  map f l !! i = option_map f (l !! i).
Proof.
  revert i. induction l as [|x r IH]; intros [|i]; simpl; auto.
Qed.





(** ** Causality of the kernels *)



Lemma roll_from_length (g : Aggregator) (v : column) (W : nat) :
  forall rows st, length (roll_from g v W st rows) = length rows.
Proof.
  induction rows as [|i r IH]; intros st; simpl; auto.
Qed.


Lemma roll_length (g : Aggregator) (v : column) (W : nat) :
  length (roll g v W) = length v.
Proof. unfold roll. rewrite roll_from_length, length_seq. reflexivity. Qed.


(** ** Columns of a frame *)

Lemma assoc_get_set {A} (m n : string) (v : A) (l : list (string * A)) :
  assoc_get m (assoc_set n v l) = if String.eqb m n then Some v else assoc_get m l.
Proof.
  induction l as [|[k w] r IH]; simpl.
  - reflexivity.
  - destruct (String.eqb n k) eqn:Enk; simpl.
    + apply String.eqb_eq in Enk. subst k.
      destruct (String.eqb m n); reflexivity.
    + rewrite IH. destruct (String.eqb m k) eqn:Emk; [|reflexivity].
      apply String.eqb_eq in Emk. subst k.
      rewrite String.eqb_sym, Enk. reflexivity.
Qed.

Lemma get_set_column_eq (n : string) (vs : column) (df : DataFrame) :
  get_column n (set_column n vs df) = Some vs.
Proof.
  unfold get_column, set_column. simpl. rewrite assoc_get_set, String.eqb_refl.
  reflexivity.
Qed.

Lemma get_set_column_ne (m n : string) (vs : column) (df : DataFrame) :
  String.eqb m n = false ->
  get_column m (set_column n vs df) = get_column m df.
Proof.
  intros H. unfold get_column, set_column. simpl. rewrite assoc_get_set, H.
  reflexivity.
Qed.

Lemma has_column_get (n : string) (df : DataFrame) :
  has_column n df = true <-> exists vs, get_column n df = Some vs.
Proof.
  unfold has_column, get_column, col_names.
  induction (df_columns df) as [|[k w] r IH]; simpl.
  - split; [discriminate|]. intros [vs H]. discriminate.
  - destruct (String.eqb n k); simpl; [|exact IH].
    split; eauto.
Qed.

(** ** The indicator columns of the spread chart *)

Ltac step_get H :=
  repeat (progress (repeat (first [ rewrite get_set_column_eq in H
                                  | rewrite get_set_column_ne in H by reflexivity ]);
                    cbn [mbind option_bind] in H)).

Lemma plot_columns (sqrtQ : Q -> Q) (df out : DataFrame) :
  plot_equity_bond_spread sqrtQ df = Some out ->
  exists src : column,
    get_column "股债利差"
      (select_rows_df (fun d => (date_2010_01_01 <=? d)%Z) df) = Some src /\
    get_column "股债利差" out = Some src /\
    get_column "5年均线" out = Some (rolling_mean window 1 src) /\
    get_column "5年标准差" out = Some (rolling_std sqrtQ window 1 src) /\
    get_column "+1 STD" out
      = Some (band_plus 1 (rolling_mean window 1 src) (rolling_std sqrtQ window 1 src)) /\
    get_column "-1 STD" out
      = Some (band_minus 1 (rolling_mean window 1 src) (rolling_std sqrtQ window 1 src)) /\
    get_column "+2 STD" out
      = Some (band_plus 2 (rolling_mean window 1 src) (rolling_std sqrtQ window 1 src)) /\
    get_column "-2 STD" out
      = Some (band_minus 2 (rolling_mean window 1 src) (rolling_std sqrtQ window 1 src)).
Proof.
  unfold plot_equity_bond_spread. intros H.
  destruct (get_column "股债利差" (select_rows_df _ df)) as [src|] eqn:Hsrc;
    [|discriminate].
  cbn [mbind option_bind] in H.
  step_get H. rewrite Hsrc in H. step_get H.
  injection H as <-.
  exists src. split; [reflexivity|].
  repeat split;
    repeat (first [ rewrite get_set_column_eq
                  | rewrite get_set_column_ne by reflexivity ]);
    first [reflexivity | exact Hsrc].
Qed.

Lemma band_plus_lookup (k : Q) (m s : column) (t : nat) (mt st : cell) :
  m !! t = Some mt -> s !! t = Some st ->
  band_plus k m s !! t = Some (cell_add mt (cell_scale k st)).
Proof.
  intros Hm Hs. unfold band_plus.
  rewrite lookup_zip_with, Hm, lookup_map, Hs. reflexivity.
Qed.

Lemma band_minus_lookup (k : Q) (m s : column) (t : nat) (mt st : cell) :
  m !! t = Some mt -> s !! t = Some st ->
  band_minus k m s !! t = Some (cell_sub mt (cell_scale k st)).
Proof.
  intros Hm Hs. unfold band_minus.
  rewrite lookup_zip_with, Hm, lookup_map, Hs. reflexivity.
Qed.








(** ** The first row *)

Lemma roll_first (g : Aggregator) (c : cell) (rest : column) (W : nat) :
  1 <= W ->
  roll g (c :: rest) W !! 0 = Some (agg_calc g (agg_add g c (agg_fresh g))).
Proof.
  intros HW. unfold roll. simpl. unfold roll_step. simpl.
  unfold win_start, win_end, slice. 
  replace (0 + 1 - W) with 0 by lia. reflexivity.
Qed.

Lemma window_pos : 1 <= window.
Proof. unfold window. lia. Qed.

Lemma rolling_std_first (sqrtQ : Q -> Q) (c : cell) (rest : column) :
  rolling_std sqrtQ window 1 (c :: rest) !! 0 = Some None.
Proof.
  unfold rolling_std, rolling_var.
  rewrite lookup_map, (roll_first _ c rest window window_pos).
  destruct c; reflexivity.
Qed.

Lemma rolling_mean_first (q : Q) (rest : column) :
  exists mu, rolling_mean window 1 (Some q :: rest) !! 0 = Some (Some mu) /\ (mu == q)%Q.
Proof.
  unfold rolling_mean. rewrite (roll_first _ (Some q) rest window window_pos).
  pose proof (calc_mean_spec _ _ (mean_inv_add _ _ (Some q) mean_inv_fresh)) as H.
  change (agg_calc (mean_agg 1) (agg_add (mean_agg 1) (Some q) (agg_fresh (mean_agg 1))))
    with (calc_mean 1 (add_mean (Some q) (mkMean 0 0 0))).
  destruct (calc_mean 1 (add_mean (Some q) (mkMean 0 0 0))) as [mu|]; [|destruct H].
  exists mu. split; [reflexivity|].
  unfold arithmetic_mean in H. simpl in H. rewrite H. field.
Qed.

Lemma cell_add_nan_r (a : cell) (k : Q) : cell_add a (cell_scale k None) = None.
Proof. destruct a; reflexivity. Qed.

Lemma cell_sub_nan_r (a : cell) (k : Q) : cell_sub a (cell_scale k None) = None.
Proof. destruct a; reflexivity. Qed.

(** C10. In the frame that is drawn, at the first date of a non-empty series
    the rolling deviation is undefined although one sample is enough for the
    window, and so are the four band columns; the rolling mean at that date
    is the first observation. *)
Theorem C10_first_row_deviation_undefined
  (sqrtQ : Q -> Q) (df out : DataFrame) (c : cell) (rest : column) :
  plot_equity_bond_spread sqrtQ df = Some out ->
  get_column "股债利差" out = Some (c :: rest) ->
  exists m s p1 m1 p2 m2 : column,
    get_column "5年均线" out = Some m /\
    get_column "5年标准差" out = Some s /\
    get_column "+1 STD" out = Some p1 /\
    get_column "-1 STD" out = Some m1 /\
    get_column "+2 STD" out = Some p2 /\
    get_column "-2 STD" out = Some m2 /\
    s !! 0 = Some None /\
    p1 !! 0 = Some None /\ m1 !! 0 = Some None /\
    p2 !! 0 = Some None /\ m2 !! 0 = Some None /\
    (forall q, c = Some q ->
               exists mu, m !! 0 = Some (Some mu) /\ (mu == q)%Q).
Proof.
  intros H Hsrc.
  destruct (plot_columns sqrtQ df out H)
    as (src & _ & Hsrc' & Hm & Hs & Hp1 & Hm1 & Hp2 & Hm2).
  rewrite Hsrc in Hsrc'. injection Hsrc' as <-.
  eexists _, _, _, _, _, _.
  repeat (split; [eassumption|]).
  pose proof (rolling_std_first sqrtQ c rest) as Hs0.
  assert (Hm0 : exists m0, rolling_mean window 1 (c :: rest) !! 0 = Some m0).
  { apply lookup_lt_is_Some. unfold rolling_mean. rewrite roll_length. simpl. lia. }
  destruct Hm0 as [m0 Hm0].
  split; [exact Hs0|].
  rewrite !(band_plus_lookup _ _ _ 0 m0 None Hm0 Hs0).
  rewrite !(band_minus_lookup _ _ _ 0 m0 None Hm0 Hs0).
  rewrite !cell_add_nan_r, !cell_sub_nan_r.
  repeat (split; [reflexivity|]).
  intros q ->. apply rolling_mean_first.
Qed.

Lemma C10_first_row_deviation_undefined_witness :
  plot_equity_bond_spread sqrt_stub spread_table = Some spread_chart /\
  get_column "股债利差" spread_chart
    = Some [Some (3 # 100)%Q; Some (5 # 100)%Q; Some (4 # 100)%Q] /\
  exists m s p1 m1 p2 m2 : column,
    get_column "5年均线" spread_chart = Some m /\
    get_column "5年标准差" spread_chart = Some s /\
    get_column "+1 STD" spread_chart = Some p1 /\
    get_column "-1 STD" spread_chart = Some m1 /\
    get_column "+2 STD" spread_chart = Some p2 /\
    get_column "-2 STD" spread_chart = Some m2 /\
    s !! 0 = Some None /\
    p1 !! 0 = Some None /\ m1 !! 0 = Some None /\
    p2 !! 0 = Some None /\ m2 !! 0 = Some None /\
    (forall q, Some (3 # 100)%Q = Some q ->
               exists mu, m !! 0 = Some (Some mu) /\ (mu == q)%Q).
Proof.
  assert (H : plot_equity_bond_spread sqrt_stub spread_table = Some spread_chart)
    by (vm_compute; reflexivity).
  assert (Hsrc : get_column "股债利差" spread_chart
                 = Some [Some (3 # 100)%Q; Some (5 # 100)%Q; Some (4 # 100)%Q])
    by (vm_compute; reflexivity).
  split; [exact H|]. split; [exact Hsrc|].
  exact (C10_first_row_deviation_undefined sqrt_stub spread_table spread_chart _ _ H Hsrc).
Defined.

(** ** Stages of the panel pipeline *)

Lemma bind_fst {A B} (c : Logged A) (k : A -> Logged B) :
  fst (bind c k) = fst (k (fst c)).
Proof. reflexivity. Qed.


Lemma assoc_get_In {A} (n : string) (v : A) (l : list (string * A)) :
  assoc_get n l = Some v -> In (n, v) l.
Proof.
  induction l as [|[k w] r IH]; simpl; [discriminate|].
  destruct (String.eqb n k) eqn:E.
  - apply String.eqb_eq in E. subst k. intros [= ->]. left. reflexivity.
  - intros H. right. auto.
Qed.

Lemma get_column_map (f : column -> column) (n : string) (df : DataFrame) :
  get_column n (map_columns f df) = option_map f (get_column n df).
Proof.
  unfold get_column, map_columns. simpl.
  induction (df_columns df) as [|[k w] r IH]; simpl; [reflexivity|].
  destruct (String.eqb n k); [reflexivity|exact IH].
Qed.

Lemma has_column_map (f : column -> column) (n : string) (df : DataFrame) :
  has_column n (map_columns f df) = has_column n df.
Proof.
  unfold has_column, col_names, map_columns. simpl. rewrite map_map. reflexivity.
Qed.

Lemma has_column_set (m n : string) (vs : column) (df : DataFrame) :
  has_column m (set_column n vs df) = String.eqb m n || has_column m df.
Proof.
  unfold has_column, col_names, set_column. simpl.
  induction (df_columns df) as [|[k w] r IH]; simpl.
  - destruct (String.eqb m n); reflexivity.
  - destruct (String.eqb n k) eqn:Enk; simpl.
    + apply String.eqb_eq in Enk. subst k.
      destruct (String.eqb m n); reflexivity.
    + rewrite IH. destruct (String.eqb m k), (String.eqb m n); reflexivity.
Qed.

(** The yield step writes exactly one column, the yield column. *)
Lemma add_china_yield_fst (china : Series) (main_df : DataFrame) :
  exists vs, fst (add_china_yield china main_df) = set_column yield_col vs main_df.
Proof.
  unfold add_china_yield.
  destruct (negb (series_empty china)); [|eexists; reflexivity].
  rewrite bind_fst.
  match goal with |- context [negb (series_empty ?s)] =>
    destruct (negb (series_empty s)) end; eexists; reflexivity.
Qed.


Lemma final_fill_index (main_df : DataFrame) :
  df_index (fst (final_fill main_df)) = df_index main_df.
Proof.
  unfold final_fill.
  destruct (has_column yield_col (bfill (ffill main_df))); reflexivity.
Qed.

Lemma add_basis_index (main_df : DataFrame) :
  df_index (fst (add_basis main_df)) = df_index main_df.
Proof.
  unfold add_basis.
  destruct (get_column spot_col main_df), (get_column near_col main_df); reflexivity.
Qed.

(** The panel that [build_panel] returns, stage by stage. *)
Lemma build_panel_fst (env : Env) (data : DataFrame) :
  fst (build_panel env data)
  = fst (final_fill
           (fst (add_china_yield
                   (fst (get_china_bond_yield (today env) (bond_zh_us_rate env)))
                   (fst (add_basis (fst (clean_panel data))))))).
Proof. reflexivity. Qed.

Lemma build_panel_index (env : Env) (data : DataFrame) :
  df_index (fst (build_panel env data)) = df_index (fst (clean_panel data)).
Proof.
  rewrite build_panel_fst, final_fill_index.
  destruct (add_china_yield_fst
              (fst (get_china_bond_yield (today env) (bond_zh_us_rate env)))
              (fst (add_basis (fst (clean_panel data))))) as [vs ->].
  simpl. apply add_basis_index.
Qed.


(** ** The basis *)

Lemma get_column_defined (data : DataFrame) (n : string) (vs : column) :
  get_column n (fst (clean_panel data)) = Some vs ->
  length vs = length (df_index (fst (clean_panel data))) /\
  Forall (fun c => c <> None) vs.
Proof.
  intros H. apply assoc_get_In in H.
  destruct (clean_panel_column data n vs H) as (_ & Hlen & Hdef & _).
  split; assumption.
Qed.

Lemma defined_lookup (vs : column) (i : nat) :
  Forall (fun c => c <> None) vs -> i < length vs ->
  exists q, vs !! i = Some (Some q).
Proof.
  intros Hdef Hi. destruct (lookup_lt_is_Some_2 vs i Hi) as [c Hc].
  pose proof (proj1 (Forall_lookup _ _) Hdef i c Hc) as Hne.
  destruct c as [q|]; [eauto|congruence].
Qed.

Lemma zip_sub_defined (a b : column) :
  Forall (fun c => c <> None) a -> Forall (fun c => c <> None) b ->
  Forall (fun c => c <> None) (zip_with cell_sub a b).
Proof.
  intros Ha. revert b. induction Ha as [|x a Hx Ha IH]; intros b Hb; simpl.
  - constructor.
  - destruct Hb as [|y b Hy Hb]; constructor.
    + destruct x, y; simpl; congruence.
    + apply IH. exact Hb.
Qed.








(** ** The auxiliary yield column *)

Lemma select_none {A} (p : Z -> bool) (idx : list Z) (l : list A) :
  Forall (fun d => p d = false) idx -> select (map p idx) l = [].
Proof.
  intros H. revert l. induction H as [|d r Hd Hr IH]; intros l; simpl.
  - reflexivity.
  - destruct l as [|x l]; [reflexivity|]. rewrite Hd. apply IH.
Qed.

Lemma index_min_In (l : list Z) (m : Z) : index_min l = Some m -> In m l.
Proof.
  destruct l as [|d r]; simpl; [discriminate|]. intros [= <-].
  induction r as [|x r IH]; simpl; [left; reflexivity|].
  destruct (Z.min_spec x (fold_right Z.min d r)) as [[_ ->]|[_ ->]].
  - right. left. reflexivity.
  - destruct IH as [IH|IH]; [left; exact IH|right; right; exact IH].
Qed.

Lemma replicate_defined (n : nat) (q : Q) :
  Forall (fun c : option Q => c <> None) (replicate n (Some q)).
Proof. apply Forall_replicate. discriminate. Qed.

Lemma select_notna_defined (vs : column) :
  Forall (fun c => c <> None) (select (map notna vs) vs).
Proof.
  induction vs as [|[q|] r IH]; simpl; [constructor| |exact IH].
  constructor; [discriminate|exact IH].
Qed.

(** The yield series handed to step 6 has no undefined value: rows without
    a yield are dropped, and the default series is constant. *)
Lemma get_china_bond_yield_defined (today : Z) (fetched : option DataFrame) :
  Forall (fun c => c <> None) (s_values (fst (get_china_bond_yield today fetched))).
Proof.
  assert (Hdef : Forall (fun c : option Q => c <> None)
                        (s_values (create_default_bond_data today))).
  { apply replicate_defined. }
  unfold get_china_bond_yield.
  destruct fetched as [bond_data|]; [|exact Hdef].
  destruct (df_empty bond_data); [exact Hdef|].
  destruct (get_column _ bond_data) as [vs|]; [|exact Hdef].
  match goal with |- context [series_empty ?s] => destruct (series_empty s) end;
    [exact Hdef|].
  apply select_notna_defined.
Qed.

(** The closing fill keeps a constant yield column. *)
Lemma final_fill_scalar (main_df : DataFrame) (q : Q) :
  get_column yield_col (fst (final_fill (set_scalar yield_col (Some q) main_df)))
  = Some (replicate (length (df_index main_df)) (Some q)).
Proof.
  unfold final_fill, set_scalar.
  assert (Hhas : has_column yield_col
                   (bfill (ffill (set_column yield_col
                      (replicate (length (df_index main_df)) (Some q)) main_df)))
                 = true).
  { unfold bfill, ffill. rewrite !has_column_map, has_column_set, String.eqb_refl.
    reflexivity. }
  rewrite Hhas. unfold ret; cbn [fst].
  unfold bfill, ffill. rewrite !get_column_map, get_set_column_eq. simpl.
  unfold ffill_col. rewrite ffill_from_id by apply replicate_defined.
  rewrite bfill_col_id by apply replicate_defined. reflexivity.
Qed.

(** A series that lies wholly after the panel is empty once clipped, and
    still empty after the daily resampling. *)
Lemma clip_late_series (china : Series) (main_df : DataFrame) (hi : Z) :
  index_max (df_index main_df) = Some hi ->
  Forall (fun d => (hi < d)%Z) (s_index china) ->
  series_empty (clip_to_panel main_df china) = true /\
  series_empty (clip_to_panel main_df (resample_D_ffill china)) = true.
Proof.
  intros Hmax Hlate.
  assert (Hclip : forall s : Series,
             Forall (fun d => (hi < d)%Z) (s_index s) ->
             series_empty (clip_to_panel main_df s) = true).
  { intros s Hs. unfold clip_to_panel, select_rows, series_empty. simpl.
    rewrite select_none; [reflexivity|].
    eapply Forall_impl; [|exact Hs]. intros d Hd. simpl in Hd.
    unfold in_range. rewrite Hmax.
    destruct (index_min (df_index main_df)); [|reflexivity].
    apply andb_false_iff. right. apply Z.leb_gt. exact Hd. }
  split; [apply Hclip; exact Hlate|].
  apply Hclip. unfold resample_D_ffill.
  destruct (index_min (s_index china)) as [lo|] eqn:Hlo; [|exact Hlate].
  destruct (index_max (s_index china)) as [hi'|]; [|exact Hlate].
  simpl. apply Forall_forall. intros d Hd.
  apply list_elem_of_In, elem_of_seqZ in Hd.
  apply index_min_In in Hlo.
  pose proof (proj1 (Forall_forall _ _) Hlate lo Hlo) as Hlo'. simpl in Hlo'. lia.
Qed.

(** C5. When the yield series clipped to the panel's date range is empty and
    its daily resampling clipped again is still empty, the yield column is the
    constant 2.5 over the whole panel index, a warning is recorded, and the
    column is still that constant, with no undefined entry, in the panel that
    leaves the closing fill.  A series that lies wholly after the panel's end
    is such a series. *)
Theorem C5_default_yield_column (china : Series) (main_df : DataFrame) :
  series_empty (clip_to_panel main_df china) = true ->
  series_empty (clip_to_panel main_df (resample_D_ffill china)) = true ->
  (default_yield == 25 # 10)%Q /\
  snd (add_china_yield china main_df)
    = (if series_empty china then [WarnNoYieldData]
       else [WarnClipEmpty; WarnNoMatchingYield]) /\
  df_index (fst (final_fill (fst (add_china_yield china main_df))))
    = df_index main_df /\
  get_column yield_col (fst (add_china_yield china main_df))
    = Some (replicate (length (df_index main_df)) (Some default_yield)) /\
  get_column yield_col (fst (final_fill (fst (add_china_yield china main_df))))
    = Some (replicate (length (df_index main_df)) (Some default_yield)) /\
  (forall hi : Z,
      index_max (df_index main_df) = Some hi ->
      Forall (fun d => (hi < d)%Z) (s_index china) ->
      series_empty (clip_to_panel main_df china) = true /\
      series_empty (clip_to_panel main_df (resample_D_ffill china)) = true).
Proof.
  intros Hclip Hre.
  assert (Hstep : add_china_yield china main_df
                  = (set_scalar yield_col (Some default_yield) main_df,
                     if series_empty china then [WarnNoYieldData]
                     else [WarnClipEmpty; WarnNoMatchingYield])).
  { unfold add_china_yield.
    destruct (series_empty china); [reflexivity|]. simpl negb. cbv iota.
    rewrite Hclip. unfold bind, tell, ret. cbn [fst snd]. rewrite Hre.
    reflexivity. }
  split; [reflexivity|]. rewrite Hstep. cbn [fst snd].
  split; [reflexivity|]. split; [rewrite final_fill_index; reflexivity|].
  split; [apply get_set_column_eq|]. split; [apply final_fill_scalar|].
  intros hi. apply clip_late_series.
Qed.

Lemma C5_default_yield_column_witness :
  series_empty (clip_to_panel small_panel late_yield) = true /\
  series_empty (clip_to_panel small_panel (resample_D_ffill late_yield)) = true /\
  get_column yield_col (fst (final_fill (fst (add_china_yield late_yield small_panel))))
    = Some (replicate (length (df_index small_panel)) (Some default_yield)).
Proof.
  assert (H1 : series_empty (clip_to_panel small_panel late_yield) = true)
    by reflexivity.
  assert (H2 : series_empty (clip_to_panel small_panel (resample_D_ffill late_yield))
               = true) by reflexivity.
  split; [exact H1|]. split; [exact H2|].
  exact (proj1 (proj2 (proj2 (proj2 (proj2
           (C5_default_yield_column late_yield small_panel H1 H2)))))).
Defined.

(** ** Re-indexing the auxiliary series *)

Lemma strictly_increasing_sorted (idx : list Z) :
  is_strictly_increasing idx = true -> StronglySorted Z.lt idx.
Proof.
  induction idx as [|d r IH]; intros H; [constructor|].
  destruct r as [|e r'].
  - constructor; constructor.
  - simpl in H. apply andb_true_iff in H as [Hde Hr].
    apply Z.ltb_lt in Hde. specialize (IH Hr).
    constructor; [exact IH|].
    inversion IH as [|? ? Hs Hall]; subst.
    constructor; [exact Hde|].
    eapply Forall_impl; [|exact Hall]. intros x Hx. simpl in Hx. lia.
Qed.

Lemma select_sorted (mask : list bool) : forall idx : list Z,
  StronglySorted Z.lt idx -> StronglySorted Z.lt (select mask idx).
Proof.
  induction mask as [|b m IH]; intros idx H; [destruct idx; constructor|].
  destruct idx as [|d r]; [constructor|].
  inversion H as [|? ? Hs Hall]; subst. simpl.
  destruct b; [|apply IH; exact Hs].
  constructor; [apply IH; exact Hs|].
  clear -Hall. revert r Hall. induction m as [|b m IHm]; intros r Hall.
  - destruct r; constructor.
  - destruct r as [|e r]; [constructor|].
    inversion Hall; subst. simpl. destruct b; [constructor|]; auto.
Qed.

(** A selected row is a row of the series, and a row whose date passes the
    filter is selected. *)
Lemma select_row_inv (p : Z -> bool) : forall (idx : list Z) (vals : column) q d v,
  select (map p idx) idx !! q = Some d ->
  select (map p idx) vals !! q = Some v ->
  p d = true /\ exists q', idx !! q' = Some d /\ vals !! q' = Some v.
Proof.
  induction idx as [|e r IH]; intros vals q d v Hd Hv; [discriminate|].
  destruct vals as [|w vals]; [discriminate|]. simpl in Hd, Hv.
  destruct (p e) eqn:Epe.
  - destruct q as [|q]; simpl in Hd, Hv.
    + injection Hd as <-. injection Hv as <-. split; [exact Epe|].
      exists 0. split; reflexivity.
    + destruct (IH vals q d v Hd Hv) as [Hp [q' [H1 H2]]].
      split; [exact Hp|]. exists (S q'). split; assumption.
  - destruct (IH vals q d v Hd Hv) as [Hp [q' [H1 H2]]].
    split; [exact Hp|]. exists (S q'). split; assumption.
Qed.

Lemma select_row_intro (p : Z -> bool) : forall (idx : list Z) q d,
  idx !! q = Some d -> p d = true ->
  exists q', select (map p idx) idx !! q' = Some d.
Proof.
  induction idx as [|e r IH]; intros q d Hd Hp; [discriminate|].
  simpl. destruct q as [|q]; simpl in Hd.
  - injection Hd as ->. rewrite Hp. exists 0. reflexivity.
  - destruct (IH q d Hd Hp) as [q' Hq'].
    destruct (p e); [exists (S q')|exists q']; exact Hq'.
Qed.

Lemma select_length_eq {A B} (mask : list bool) : forall (a : list A) (b : list B),
  length a = length b -> length (select mask a) = length (select mask b).
Proof.
  induction mask as [|m ms IH]; intros a b H; [destruct a, b; reflexivity|].
  destruct a, b; simpl in *; try discriminate; [reflexivity|].
  destruct m; simpl; auto.
Qed.

(** *** The pad indexer on an increasing index *)

Lemma count_le_sorted (idx : list Z) (t : Z) :
  StronglySorted Z.lt idx ->
  forall p d, idx !! p = Some d -> ((d <= t)%Z <-> p < count_le idx t).
Proof.
  unfold count_le. induction 1 as [|e r Hs IH Hall]; intros p d Hd; [discriminate|].
  simpl. destruct p as [|p]; simpl in Hd.
  - injection Hd as ->. destruct (d <=? t)%Z eqn:E; simpl.
    + apply Z.leb_le in E. split; [lia|auto].
    + apply Z.leb_gt in E. split; [lia|].
      intros Hlt. exfalso.
      assert (Hnil : List.filter (fun d0 => (d0 <=? t)%Z) r = []).
      { clear -Hall E. induction Hall as [|x r Hx Hall IH]; simpl; [reflexivity|].
        replace (x <=? t)%Z with false by (symmetry; apply Z.leb_gt; lia). exact IH. }
      rewrite Hnil in Hlt. simpl in Hlt. lia.
  - pose proof (proj1 (Forall_lookup _ _) Hall p d Hd) as Hed. simpl in Hed.
    destruct (e <=? t)%Z eqn:E; simpl.
    + rewrite (IH p d Hd). lia.
    + apply Z.leb_gt in E.
      assert (Hnil : List.filter (fun d0 => (d0 <=? t)%Z) r = []).
      { clear -Hall E. induction Hall as [|x r Hx Hall IH]; simpl; [reflexivity|].
        replace (x <=? t)%Z with false by (symmetry; apply Z.leb_gt; lia). exact IH. }
      rewrite Hnil. simpl. lia.
Qed.

Lemma pad_from_count (idx : list Z) (t : Z) :
  StronglySorted Z.lt idx ->
  forall i last,
    pad_from i last idx t
    = if Nat.eqb (count_le idx t) 0 then last else Some (i + count_le idx t - 1).
Proof.
  unfold count_le. induction 1 as [|e r Hs IH Hall]; intros i last; [reflexivity|].
  simpl. destruct (e <=? t)%Z eqn:E; simpl.
  - rewrite IH.
    destruct (length (List.filter (fun d => (d <=? t)%Z) r)) as [|n]; simpl.
    + f_equal. lia.
    + f_equal. lia.
  - apply Z.leb_gt in E.
    assert (Hnil : List.filter (fun d0 => (d0 <=? t)%Z) r = []).
    { clear -Hall E. induction Hall as [|x r Hx Hall IH]; simpl; [reflexivity|].
      replace (x <=? t)%Z with false by (symmetry; apply Z.leb_gt; lia). exact IH. }
    rewrite Hnil. reflexivity.
Qed.

Lemma sorted_lookup_le (idx : list Z) :
  StronglySorted Z.lt idx ->
  forall p q a b, p <= q -> idx !! p = Some a -> idx !! q = Some b -> (a <= b)%Z.
Proof.
  induction 1 as [|e r Hs IH Hall]; intros p q a b Hpq Ha Hb; [discriminate|].
  destruct p as [|p], q as [|q]; simpl in *; try lia.
  - injection Ha as ->. injection Hb as ->. lia.
  - injection Ha as ->.
    pose proof (proj1 (Forall_lookup _ _) Hall q b Hb) as H. simpl in H. lia.
  - apply (IH p q a b); [lia|assumption|assumption].
Qed.

(** The re-indexed value at [t]: NaN when no label is at or before [t],
    otherwise the value at the latest label at or before [t]. *)
Lemma reindex_value_none (idx : list Z) (vals : column) (t : Z) :
  StronglySorted Z.lt idx ->
  (forall p d, idx !! p = Some d -> (t < d)%Z) ->
  take_cell vals (get_indexer_pad idx t) = None.
Proof.
  intros Hs Hall. unfold get_indexer_pad. rewrite pad_from_count by exact Hs.
  destruct (count_le idx t) as [|n] eqn:En; [reflexivity|]. exfalso.
  assert (Hlt : 0 < length idx).
  { unfold count_le in En.
    pose proof (filter_length_le (fun d => (d <=? t)%Z) idx). lia. }
  destruct (lookup_lt_is_Some_2 idx 0 Hlt) as [d Hd].
  pose proof (proj2 (count_le_sorted idx t Hs 0 d Hd) ltac:(lia)).
  specialize (Hall 0 d Hd). lia.
Qed.

Lemma reindex_value_some (idx : list Z) (vals : column) (t d0 : Z) (p0 : nat) :
  StronglySorted Z.lt idx ->
  length vals = length idx ->
  idx !! p0 = Some d0 -> (d0 <= t)%Z ->
  exists p d v,
    idx !! p = Some d /\ vals !! p = Some v /\ (d <= t)%Z /\
    (forall p' d', idx !! p' = Some d' -> (d' <= t)%Z -> (d' <= d)%Z) /\
    take_cell vals (get_indexer_pad idx t) = v.
Proof.
  intros Hs Hlen Hp0 Hd0. unfold get_indexer_pad. rewrite pad_from_count by exact Hs.
  pose proof (proj1 (count_le_sorted idx t Hs p0 d0 Hp0) Hd0) as Hn.
  destruct (count_le idx t) as [|n] eqn:En; [lia|]. simpl.
  replace (n - 0) with n by lia.
  assert (Hn' : n < length idx).
  { unfold count_le in En.
    pose proof (filter_length_le (fun d => (d <=? t)%Z) idx). lia. }
  destruct (lookup_lt_is_Some_2 idx n Hn') as [d Hd].
  destruct (lookup_lt_is_Some_2 vals n ltac:(lia)) as [v Hv].
  exists n, d, v. split; [exact Hd|]. split; [exact Hv|].
  split; [apply (count_le_sorted idx t Hs n d Hd); lia|].
  split.
  - intros p' d' Hp' Hd'.
    pose proof (proj1 (count_le_sorted idx t Hs p' d' Hp') Hd') as Hlt.
    rewrite En in Hlt.
    apply (sorted_lookup_le idx Hs p' n d' d); [lia|assumption|assumption].
  - rewrite Hv. reflexivity.
Qed.

Lemma index_max_spec (l : list Z) (hi : Z) :
  index_max l = Some hi -> In hi l /\ Forall (fun d => (d <= hi)%Z) l.
Proof.
  destruct l as [|d r]; simpl; [discriminate|]. intros [= <-].
  induction r as [|x r [IHin IHall]]; simpl.
  - split; [left; reflexivity|]. constructor; [lia|constructor].
  - inversion IHall as [|? ? Hd Hr]; subst.
    destruct (Z.max_spec x (fold_right Z.max d r)) as [[Hlt ->]|[Hge ->]].
    + split.
      * destruct IHin as [IHin|IHin]; [left; exact IHin|right; right; exact IHin].
      * constructor; [exact Hd|]. constructor; [lia|exact Hr].
    + split; [right; left; reflexivity|].
      constructor; [lia|]. constructor; [lia|].
      eapply Forall_impl; [|exact Hr]. intros a Ha. simpl in Ha. lia.
Qed.

Lemma in_range_bounds (lo hi : option Z) (d : Z) :
  in_range lo hi d = true ->
  exists l h, lo = Some l /\ hi = Some h /\ (l <= d <= h)%Z.
Proof.
  unfold in_range. destruct lo as [l|], hi as [h|]; try discriminate.
  intros H. apply andb_true_iff in H as [H1 H2].
  apply Z.leb_le in H1. apply Z.leb_le in H2. exists l, h. auto.
Qed.

Lemma sorted_head_le (idx : list Z) (d0 : Z) :
  StronglySorted Z.lt idx -> head idx = Some d0 ->
  forall p d, idx !! p = Some d -> (d0 <= d)%Z.
Proof.
  intros Hs Hh p d Hd. destruct idx as [|e r]; [discriminate|].
  simpl in Hh. injection Hh as ->.
  apply (sorted_lookup_le (d0 :: r) Hs 0 p d0 d); [lia|reflexivity|exact Hd].
Qed.

(** With observations in range, step 6 writes the re-indexed series. *)
Lemma add_china_yield_overlap (china : Series) (main_df : DataFrame) :
  series_empty (clip_to_panel main_df china) = false ->
  fst (add_china_yield china main_df)
  = set_column yield_col
      (s_values (reindex_ffill (clip_to_panel main_df china) (df_index main_df)))
      main_df.
Proof.
  intros Hne. unfold add_china_yield.
  assert (Hchina : series_empty china = false).
  { destruct (series_empty china) eqn:E; [|reflexivity].
    unfold series_empty in E. apply Nat.eqb_eq in E.
    unfold clip_to_panel, select_rows, series_empty in Hne. simpl in Hne.
    destruct (s_index china); [discriminate Hne|discriminate E]. }
  rewrite Hchina. simpl negb. cbv iota.
  rewrite Hne. unfold bind, ret. cbn [fst]. rewrite Hne. reflexivity.
Qed.

Lemma final_fill_yield (vs : column) (main_df : DataFrame) :
  get_column yield_col (fst (final_fill (set_column yield_col vs main_df)))
  = Some (bfill_col (ffill_col vs)).
Proof.
  unfold final_fill.
  assert (Hhas : has_column yield_col (bfill (ffill (set_column yield_col vs main_df)))
                 = true).
  { unfold bfill, ffill. rewrite !has_column_map, has_column_set, String.eqb_refl.
    reflexivity. }
  rewrite Hhas. unfold ret; cbn [fst].
  unfold bfill, ffill. rewrite !get_column_map, get_set_column_eq. reflexivity.
Qed.

(** The re-indexed yield column, date by date. *)
Lemma reindexed_yield_spec (china : Series) (main_df : DataFrame) (d0 : Z) :
  is_strictly_increasing (s_index china) = true ->
  length (s_values china) = length (s_index china) ->
  Forall (fun c => c <> None) (s_values china) ->
  head (s_index (clip_to_panel main_df china)) = Some d0 ->
  let col1 :=
    s_values (reindex_ffill (clip_to_panel main_df china) (df_index main_df)) in
  (forall i t, df_index main_df !! i = Some t -> (d0 <= t)%Z ->
     exists d x, is_last_known china t d (Some x) /\ col1 !! i = Some (Some x)) /\
  (forall i t, df_index main_df !! i = Some t -> (t < d0)%Z -> col1 !! i = Some None).
Proof.
  intros Hinc Hlen Hdef Hhead col1.
  pose proof (strictly_increasing_sorted _ Hinc) as Hs.
  set (p := in_range (index_min (df_index main_df)) (index_max (df_index main_df))) in *.
  assert (Hfs : StronglySorted Z.lt (s_index (clip_to_panel main_df china))).
  { apply select_sorted. exact Hs. }
  assert (Hflen : length (s_values (clip_to_panel main_df china))
                  = length (s_index (clip_to_panel main_df china))).
  { unfold clip_to_panel, select_rows. simpl. apply select_length_eq. exact Hlen. }
  assert (Hd0 : s_index (clip_to_panel main_df china) !! 0 = Some d0).
  { destruct (s_index (clip_to_panel main_df china)); [discriminate|].
    simpl in Hhead. injection Hhead as ->. reflexivity. }
  split.
  - intros i t Ht Hge.
    destruct (reindex_value_some _ (s_values (clip_to_panel main_df china)) t d0 0
                Hfs Hflen Hd0 Hge) as (q & d & v & Hqd & Hqv & Hdt & Hmax & Hval).
    unfold clip_to_panel, select_rows in Hqd, Hqv. simpl in Hqd, Hqv.
    destruct (select_row_inv _ _ _ q d v Hqd Hqv) as [Hpd [q' [Hq'd Hq'v]]].
    pose proof (proj1 (Forall_lookup _ _) Hdef q' v Hq'v) as Hv.
    destruct v as [x|]; [|congruence].
    exists d, x. split.
    + split; [exists q'; split; assumption|]. split; [exact Hdt|].
      intros p' d' Hp' Hd't.
      destruct (in_range (index_min (df_index main_df))
                         (index_max (df_index main_df)) d') eqn:Er.
      * destruct (select_row_intro _ _ p' d' Hp' Er) as [q'' Hq''].
        apply (Hmax q'' d'); [exact Hq''|exact Hd't].
      * apply in_range_bounds in Hpd as (l & h & Hl & Hh & Hb).
        unfold in_range in Er. rewrite Hl, Hh in Er.
        destruct (index_max_spec _ h Hh) as [_ Hall].
        apply list_elem_of_lookup_2, list_elem_of_In in Ht.
        pose proof (proj1 (Forall_forall _ _) Hall t Ht) as Hth. simpl in Hth.
        apply andb_false_iff in Er as [Er|Er];
          [apply Z.leb_gt in Er|apply Z.leb_gt in Er]; lia.
    + unfold col1, reindex_ffill. cbn [s_values].
      rewrite lookup_map, Ht. cbn [option_map]. rewrite Hval. reflexivity.
  - intros i t Ht Hlt. unfold col1, reindex_ffill. cbn [s_values].
    rewrite lookup_map, Ht. cbn [option_map]. f_equal.
    apply reindex_value_none; [exact Hfs|].
    intros q d Hq. pose proof (sorted_head_le _ d0 Hfs Hhead q d Hq). lia.
Qed.

(** C2, as the code has it.  A yield series with observations inside the
    panel's date range is re-indexed onto the panel index with forward fill:
    right after that step every panel date on or after the first observation
    in range carries the last known yield and every earlier panel date is
    undefined.  The closing fill of the whole panel then runs over the yield
    column too: in the returned panel the dates on or after the first
    observation keep the last known yield and the earlier dates are filled,
    none is left undefined. *)
Theorem C2_reindexed_yield_then_filled (china : Series) (main_df : DataFrame) (d0 : Z) :
  is_strictly_increasing (s_index china) = true ->
  length (s_values china) = length (s_index china) ->
  Forall (fun c => c <> None) (s_values china) ->
  head (s_index (clip_to_panel main_df china)) = Some d0 ->
  exists col1 col2 : column,
    get_column yield_col (fst (add_china_yield china main_df)) = Some col1 /\
    reconciled_yield china main_df = Some col2 /\
    length col1 = length (df_index main_df) /\
    length col2 = length (df_index main_df) /\
    (forall i t, df_index main_df !! i = Some t -> (d0 <= t)%Z ->
       exists d x, is_last_known china t d (Some x) /\
                   col1 !! i = Some (Some x) /\ col2 !! i = Some (Some x)) /\
    (forall i t, df_index main_df !! i = Some t -> (t < d0)%Z ->
       col1 !! i = Some None /\ exists x, col2 !! i = Some (Some x)).
Proof.
  intros Hinc Hlen Hdef Hhead.
  destruct (reindexed_yield_spec china main_df d0 Hinc Hlen Hdef Hhead) as [Hon Hbefore].
  assert (Hne : series_empty (clip_to_panel main_df china) = false).
  { unfold series_empty. destruct (s_index (clip_to_panel main_df china));
      [discriminate|reflexivity]. }
  set (col1 := s_values (reindex_ffill (clip_to_panel main_df china)
                                       (df_index main_df))) in *.
  assert (Hl1 : length col1 = length (df_index main_df)).
  { unfold col1, reindex_ffill. cbn [s_values]. apply length_map. }
  assert (Hl2 : length (bfill_col (ffill_col col1)) = length (df_index main_df)).
  { rewrite bfill_col_length. unfold ffill_col. rewrite ffill_from_length. exact Hl1. }
  assert (Hkeep : forall i x, col1 !! i = Some (Some x) ->
                              bfill_col (ffill_col col1) !! i = Some (Some x)).
  { intros i x H. apply bfill_col_keeps, ffill_from_keeps. exact H. }
  exists col1, (bfill_col (ffill_col col1)).
  split; [rewrite add_china_yield_overlap by exact Hne; apply get_set_column_eq|].
  split; [unfold reconciled_yield; rewrite add_china_yield_overlap by exact Hne;
          apply final_fill_yield|].
  split; [exact Hl1|]. split; [exact Hl2|]. split.
  - intros i t Ht Hge. destruct (Hon i t Ht Hge) as (d & x & Hlast & Hc1).
    exists d, x. split; [exact Hlast|]. split; [exact Hc1|]. apply Hkeep. exact Hc1.
  - intros i t Ht Hlt. split; [apply (Hbefore i t Ht Hlt)|].
    assert (Hex : Exists (fun c : option Q => c <> None) col1).
    { destruct (index_max (df_index main_df)) as [hi|] eqn:Hmax.
      - destruct (index_max_spec _ hi Hmax) as [Hin _].
        apply list_elem_of_In, list_elem_of_lookup in Hin as [j Hj].
        assert (Hd0 : (d0 <= hi)%Z).
        { assert (H0 : s_index (clip_to_panel main_df china) !! 0 = Some d0).
          { destruct (s_index (clip_to_panel main_df china)); [discriminate|].
            simpl in Hhead. injection Hhead as ->. reflexivity. }
          assert (H0v : exists v, s_values (clip_to_panel main_df china) !! 0 = Some v).
          { apply lookup_lt_is_Some_2.
            unfold clip_to_panel, select_rows in *. cbn [s_index s_values] in *.
            rewrite <- (select_length_eq _ (s_index china) (s_values china))
              by (symmetry; exact Hlen).
            apply lookup_lt_Some in H0. exact H0. }
          destruct H0v as [v H0v].
          unfold clip_to_panel, select_rows in H0, H0v. cbn [s_index s_values] in H0, H0v.
          destruct (select_row_inv _ _ _ 0 d0 v H0 H0v) as [Hr _].
          apply in_range_bounds in Hr as (l & h & _ & Hh & Hb).
          rewrite Hmax in Hh. injection Hh as ->. lia. }
        destruct (Hon j hi Hj Hd0) as (d & x & _ & Hc1).
        apply Exists_exists. exists (Some x). split; [|discriminate].
        apply list_elem_of_In. eapply list_elem_of_lookup_2. exact Hc1.
      - destruct (df_index main_df); [discriminate Ht|discriminate Hmax]. }
    pose proof (fill_closure col1 Hex) as Hall.
    assert (Hi : i < length (bfill_col (ffill_col col1))).
    { rewrite Hl2. apply lookup_lt_Some in Ht. exact Ht. }
    apply defined_lookup; assumption.
Qed.

Lemma C2_reindexed_yield_then_filled_witness :
  is_strictly_increasing (s_index mid_yield) = true /\
  length (s_values mid_yield) = length (s_index mid_yield) /\
  Forall (fun c => c <> None) (s_values mid_yield) /\
  head (s_index (clip_to_panel five_day_panel mid_yield)) = Some 3%Z /\
  exists col1 col2 : column,
    get_column yield_col (fst (add_china_yield mid_yield five_day_panel)) = Some col1 /\
    reconciled_yield mid_yield five_day_panel = Some col2 /\
    length col1 = length (df_index five_day_panel) /\
    length col2 = length (df_index five_day_panel) /\
    (forall i t, df_index five_day_panel !! i = Some t -> (3 <= t)%Z ->
       exists d x, is_last_known mid_yield t d (Some x) /\
                   col1 !! i = Some (Some x) /\ col2 !! i = Some (Some x)) /\
    (forall i t, df_index five_day_panel !! i = Some t -> (t < 3)%Z ->
       col1 !! i = Some None /\ exists x, col2 !! i = Some (Some x)).
Proof.
  assert (H1 : is_strictly_increasing (s_index mid_yield) = true) by reflexivity.
  assert (H2 : length (s_values mid_yield) = length (s_index mid_yield)) by reflexivity.
  assert (H3 : Forall (fun c : option Q => c <> None) (s_values mid_yield))
    by (repeat constructor; discriminate).
  assert (H4 : head (s_index (clip_to_panel five_day_panel mid_yield)) = Some 3%Z)
    by reflexivity.
  split; [exact H1|]. split; [exact H2|]. split; [exact H3|]. split; [exact H4|].
  exact (C2_reindexed_yield_then_filled mid_yield five_day_panel 3 H1 H2 H3 H4).
Defined.

(** The statement that the dates before the first observation stay undefined
    in the returned panel fails: with a panel of days 1 to 5 and a yield
    observed on days 3 and 4, days 1 and 2 carry the yield of day 3, in the
    panel that leaves the closing fill and in the frame the whole function
    returns. *)
Lemma C2_leading_dates_are_filled :
  reconciled_yield mid_yield five_day_panel
    = Some [Some (27 # 10)%Q; Some (27 # 10)%Q; Some (27 # 10)%Q;
            Some (28 # 10)%Q; Some (28 # 10)%Q] /\
  (exists main_df,
      fst (download_gold_training_data mid_env) = (Some main_df, [PanelCsv]) /\
      df_index main_df = [1; 2; 3; 4; 5]%Z /\
      get_column yield_col main_df
      = Some [Some (27 # 10)%Q; Some (27 # 10)%Q; Some (27 # 10)%Q;
              Some (28 # 10)%Q; Some (28 # 10)%Q]) /\
  ~ leading_dates_left_undefined mid_yield five_day_panel.
Proof.
  assert (Hcol : reconciled_yield mid_yield five_day_panel
                 = Some [Some (27 # 10)%Q; Some (27 # 10)%Q; Some (27 # 10)%Q;
                         Some (28 # 10)%Q; Some (28 # 10)%Q]) by reflexivity.
  split; [exact Hcol|]. split.
  - eexists. split; [vm_compute; reflexivity|]. split; reflexivity.
  - intros H.
    specialize (H _ 3%Z 0 1%Z Hcol eq_refl eq_refl ltac:(lia)).
    discriminate H.
Qed.

(** ** The snapshot *)

Lemma last_nonempty {A} (l : list A) : l <> [] -> exists x, list.last l = Some x.
Proof.
  intros H. destruct (list.last l) eqn:E; [eauto|].
  apply last_None in E. contradiction.
Qed.

Lemma df_empty_false (df : DataFrame) :
  df_empty df = false -> df_index df <> [] /\ df_columns df <> [].
Proof.
  unfold df_empty. intros H. apply orb_false_iff in H as [H1 H2].
  apply Nat.eqb_neq in H1. apply Nat.eqb_neq in H2.
  split; intros E; rewrite E in *; simpl in *; lia.
Qed.

(** The last row holds, for every column, the last cell of the column. *)
Lemma iloc_last_get (col : string) (t : DataFrame) :
  assoc_get col (iloc_last t)
  = option_map (fun vs => default None (list.last vs)) (get_column col t).
Proof.
  unfold iloc_last, get_column.
  induction (df_columns t) as [|[k w] r IH]; simpl; [reflexivity|].
  destruct (String.eqb col k); [reflexivity|exact IH].
Qed.




Lemma add_group_present (key : string) (group : DataFrame -> Z -> pyval)
  (t : DataFrame) (md : list (string * pyval)) :
  df_empty t = false ->
  exists d, list.last (df_index t) = Some d /\
            add_group key group (Some t) md = assoc_set key (group t d) md.
Proof.
  intros Hne. unfold add_group. rewrite Hne.
  destruct (df_empty_false t Hne) as [Hidx _].
  destruct (last_nonempty _ Hidx) as [d Hd].
  exists d. rewrite Hd. split; reflexivity.
Qed.

(** Setting the other group's key does not touch a group. *)
Lemma add_group_other (key key' : string) (group : DataFrame -> Z -> pyval)
  (table : option DataFrame) (md : list (string * pyval)) :
  String.eqb key' key = false ->
  assoc_get key' (add_group key group table md) = assoc_get key' md.
Proof.
  intros Hk. unfold add_group.
  destruct table as [t|]; [|reflexivity].
  destruct (df_empty t); [reflexivity|].
  destruct (list.last (df_index t)); [|reflexivity].
  rewrite assoc_get_set, Hk. reflexivity.
Qed.




Lemma group_of_items (fields : list (string * string)) (t : DataFrame) (d : Z) :
  exists items,
    group_of fields t d = PyDict items /\
    assoc_get "date" items = Some (PyDate d) /\
    map fst items = "date" :: map fst fields.
Proof.
  eexists. split; [reflexivity|]. split; [reflexivity|].
  simpl. rewrite map_map. reflexivity.
Qed.






(** ** The whole run *)

Lemma final_fill_has_yield (main_df : DataFrame) :
  has_column yield_col (fst (final_fill main_df)) = true.
Proof.
  unfold final_fill.
  destruct (has_column yield_col (bfill (ffill main_df))) eqn:E.
  - exact E.
  - unfold ret, bind, tell. cbn [fst]. unfold set_scalar.
    rewrite has_column_set, String.eqb_refl. reflexivity.
Qed.









(** ** The kernel loop, for any accumulator with an invariant *)

Section RollInvariant.

Variable g : Aggregator.
Variable Inv : agg_state g -> column -> Prop.
Hypothesis Inv_fresh : Inv (agg_fresh g) [].
Hypothesis Inv_add : forall st w x, Inv st w -> Inv (agg_add g x st) (w ++ [x]).
Hypothesis Inv_remove : forall st w x, Inv st (x :: w) -> Inv (agg_remove g x st) w.






End RollInvariant.

(** ** The rolling variance *)















(** ** Filling twice, and sorting *)

(** X2.  Filling a cleaned panel again changes nothing: the closing fill of the
    whole panel leaves every price column as the cleaning step left it. *)
Theorem clean_panel_is_filled (data : DataFrame) :
  bfill (ffill (fst (clean_panel data))) = fst (clean_panel data).
Proof.
  unfold bfill, ffill, map_columns. cbn [df_index df_columns].
  destruct (fst (clean_panel data)) as [idx cols] eqn:E. cbn [df_index df_columns].
  f_equal. rewrite map_map. cbn [fst snd].
  rewrite <- (map_id cols) at 2. apply map_ext_in.
  intros [n vs] Hin. cbn [fst snd].
  assert (Hdef : Forall (fun c : option Q => c <> None) vs).
  { assert (Hin' : In (n, vs) (df_columns (fst (clean_panel data))))
      by (rewrite E; exact Hin).
    destruct (clean_panel_column data n vs Hin') as (_ & _ & Hdef & _). exact Hdef. }
  unfold ffill_col. rewrite ffill_from_id by exact Hdef.
  rewrite bfill_col_id by exact Hdef. reflexivity.
Qed.

Lemma insert_by_date_perm (x : Z * nat) (l : list (Z * nat)) :
  Permutation (insert_by_date x l) (x :: l).
Proof.
  induction l as [|y r IH]; simpl; [reflexivity|].
  destruct (fst x <? fst y)%Z; [reflexivity|].
  rewrite IH. apply perm_swap.
Qed.

Lemma argsort_perm (idx : list Z) :
  Permutation (argsort idx) (combine idx (seq 0 (length idx))).
Proof.
  unfold argsort.
  induction (combine idx (seq 0 (length idx))) as [|x r IH]; simpl; [reflexivity|].
  rewrite insert_by_date_perm. constructor. exact IH.
Qed.

Lemma combine_positions (idx : list Z) : forall (vs : column) (f : nat -> option Q) k,
  length vs = length idx ->
  (forall j, j < length vs -> f (k + j) = default None (vs !! j)) ->
  map (fun p => (fst p, f (snd p))) (combine idx (seq k (length idx)))
  = combine idx vs.
Proof.
  induction idx as [|d r IH]; intros vs f k Hlen Hf; [reflexivity|].
  destruct vs as [|v vs]; [discriminate|]. simpl.
  f_equal.
  - f_equal. rewrite <- (Nat.add_0_r k). apply (Hf 0). simpl. lia.
  - apply IH; [simpl in Hlen; lia|].
    intros j Hj. replace (S k + j) with (k + S j) by lia.
    apply (Hf (S j)). simpl. lia.
Qed.

(** X3.  Sorting by the index moves whole rows: each column, paired with the
    index, holds after the sort the same (date, cell) pairs as before, and the
    dates are in ascending order. *)
Theorem sort_index_moves_rows (df : DataFrame) (name : string) (vs : column) :
  In (name, vs) (df_columns df) ->
  length vs = length (df_index df) ->
  is_ascending (df_index (sort_index df)) = true /\
  Permutation (df_index (sort_index df)) (df_index df) /\
  exists vs',
    In (name, vs') (df_columns (sort_index df)) /\
    Permutation (combine (df_index (sort_index df)) vs') (combine (df_index df) vs).
Proof.
  intros Hin Hlen. split; [apply sort_index_ascending|].
  pose proof (argsort_perm (df_index df)) as Hperm.
  split.
  - unfold sort_index. cbn [df_index].
    rewrite Hperm.
    assert (H : map fst (combine (df_index df) (seq 0 (length (df_index df))))
                = df_index df).
    { clear. generalize 0. induction (df_index df) as [|d r IH]; intros k;
        simpl; [reflexivity|]. f_equal. apply IH. }
    rewrite H. reflexivity.
  - exists (take_rows (argsort (df_index df)) vs). split.
    + unfold sort_index. cbn [df_columns].
      apply (in_map (fun c => (fst c, take_rows (argsort (df_index df)) (snd c)))
                    _ (name, vs) Hin).
    + unfold sort_index, take_rows. cbn [df_index].
      assert (Hmap : forall l : list (Z * nat),
                 combine (map fst l) (map (fun p => default None (vs !! snd p)) l)
                 = map (fun p => (fst p, default None (vs !! snd p))) l).
      { induction l as [|x l IH]; simpl; [reflexivity|]. f_equal. exact IH. }
      rewrite Hmap.
      rewrite <- (combine_positions (df_index df) vs
                    (fun p => default None (vs !! p)) 0 Hlen (fun j _ => eq_refl)).
      apply Permutation_map. exact Hperm.
Qed.

Lemma sort_index_moves_rows_witness :
  In ("a", [Some 3%Q; Some 1%Q; Some 2%Q])
     (df_columns (mkDF [30; 10; 20]%Z [("a", [Some 3%Q; Some 1%Q; Some 2%Q])])) /\
  length [Some 3%Q; Some 1%Q; Some 2%Q]
  = length (df_index (mkDF [30; 10; 20]%Z [("a", [Some 3%Q; Some 1%Q; Some 2%Q])])) /\
  Permutation
    (df_index (sort_index (mkDF [30; 10; 20]%Z [("a", [Some 3%Q; Some 1%Q; Some 2%Q])])))
    [30; 10; 20]%Z.
Proof.
  assert (H1 : In ("a", [Some 3%Q; Some 1%Q; Some 2%Q])
                  (df_columns (mkDF [30; 10; 20]%Z
                                 [("a", [Some 3%Q; Some 1%Q; Some 2%Q])])))
    by (left; reflexivity).
  assert (H2 : length [Some 3%Q; Some 1%Q; Some 2%Q]
               = length (df_index (mkDF [30; 10; 20]%Z
                                     [("a", [Some 3%Q; Some 1%Q; Some 2%Q])])))
    by reflexivity.
  split; [exact H1|]. split; [exact H2|].
  exact (proj1 (proj2 (sort_index_moves_rows _ _ _ H1 H2))).
Defined.

(** ** Dropped columns *)







(** ** The yield series that is fetched *)

Lemma seqZ_increasing (n : Z) : forall m, is_strictly_increasing (seqZ m n) = true.
Proof.
  remember (Z.to_nat n) as k eqn:Hk. revert n Hk.
  induction k as [|k IH]; intros n Hk m.
  - rewrite seqZ_nil by lia. reflexivity.
  - rewrite seqZ_cons by lia.
    specialize (IH (Z.pred n) ltac:(lia) (Z.succ m)).
    destruct (Z_le_gt_dec (Z.pred n) 0) as [Hle|Hgt].
    + rewrite seqZ_nil by exact Hle. reflexivity.
    + rewrite seqZ_cons in IH |- * by lia.
      change (is_strictly_increasing (m :: Z.succ m :: ?r))
        with ((m <? Z.succ m)%Z && is_strictly_increasing (Z.succ m :: r)).
      rewrite IH, andb_true_r. apply Z.ltb_lt. lia.
Qed.

Lemma select_notna_length (idx : list Z) (vs : column) :
  length vs = length idx ->
  length (select (map notna vs) vs) = length (select (map notna vs) idx).
Proof. intros H. apply select_length_eq. exact H. Qed.



(** ** The resampling fallback of step 6 *)

Lemma index_min_spec (l : list Z) (lo : Z) :
  index_min l = Some lo -> In lo l /\ Forall (fun d => (lo <= d)%Z) l.
Proof.
  intros H. split; [apply index_min_In; exact H|].
  destruct l as [|d r]; simpl in H; [discriminate|]. injection H as <-.
  induction r as [|x r IH]; simpl.
  - constructor; [lia|constructor].
  - inversion IH as [|? ? Hd Hr]; subst.
    constructor; [lia|]. constructor; [lia|].
    eapply Forall_impl; [|exact Hr]. intros a Ha. simpl in Ha. lia.
Qed.

Lemma select_empty_none (p : Z -> bool) (idx : list Z) :
  select (map p idx) idx = [] -> Forall (fun d => p d = false) idx.
Proof.
  induction idx as [|d r IH]; simpl; intros H; [constructor|].
  destruct (p d) eqn:E; [discriminate|]. constructor; [exact E|auto].
Qed.

Lemma series_empty_nil (s : Series) : series_empty s = true <-> s_index s = [].
Proof.
  unfold series_empty. rewrite Nat.eqb_eq. destruct (s_index s); simpl; split;
    intros H; try reflexivity; try discriminate; lia.
Qed.

(** With no observation inside the panel's date range but the daily
    resampling non-empty there, the series starts before the panel and ends
    after it, and the resampled rows in range are all the days of the
    range. *)
Lemma resample_covers_panel (china : Series) (main_df : DataFrame) :
  series_empty (clip_to_panel main_df china) = true ->
  series_empty (clip_to_panel main_df (resample_D_ffill china)) = false ->
  exists lo hi cmin cmax,
    index_min (df_index main_df) = Some lo /\
    index_max (df_index main_df) = Some hi /\
    index_min (s_index china) = Some cmin /\
    index_max (s_index china) = Some cmax /\
    (cmin < lo)%Z /\ (hi < cmax)%Z /\
    resample_D_ffill china
    = reindex_ffill china (seqZ cmin (cmax - cmin + 1)) /\
    Forall (fun d => (d < lo)%Z \/ (hi < d)%Z) (s_index china).
Proof.
  intros Hclip Hre.
  apply series_empty_nil in Hclip.
  unfold clip_to_panel, select_rows in Hclip. cbn [s_index] in Hclip.
  apply select_empty_none in Hclip.
  destruct (index_min (s_index china)) as [cmin|] eqn:Hcmin.
  2: { exfalso. unfold resample_D_ffill in Hre. rewrite Hcmin in Hre.
       destruct (s_index china) eqn:E; [|discriminate Hcmin].
       unfold clip_to_panel, select_rows, series_empty in Hre.
       cbn [s_index] in Hre. rewrite E in Hre. discriminate Hre. }
  destruct (index_max (s_index china)) as [cmax|] eqn:Hcmax.
  2: { destruct (s_index china); [discriminate Hcmin|discriminate Hcmax]. }
  assert (Hres : resample_D_ffill china
                 = reindex_ffill china (seqZ cmin (cmax - cmin + 1))).
  { unfold resample_D_ffill. rewrite Hcmin, Hcmax. reflexivity. }
  rewrite Hres in Hre.
  assert (Hf : exists f, In f (select (map (in_range (index_min (df_index main_df))
                                                     (index_max (df_index main_df)))
                                           (seqZ cmin (cmax - cmin + 1)))
                                      (seqZ cmin (cmax - cmin + 1)))).
  { unfold clip_to_panel, select_rows, series_empty, reindex_ffill in Hre.
    cbn [s_index] in Hre.
    destruct (select _ (seqZ cmin (cmax - cmin + 1))) as [|f r];
      [discriminate Hre|]. exists f. left. reflexivity. }
  destruct Hf as [f Hf].
  apply list_elem_of_In, list_elem_of_lookup in Hf as [q Hq].
  assert (Hqv : exists v : option Q,
             select (map (in_range (index_min (df_index main_df))
                                   (index_max (df_index main_df)))
                         (seqZ cmin (cmax - cmin + 1)))
                    (map (fun _ : Z => @None Q) (seqZ cmin (cmax - cmin + 1))) !! q
             = Some v).
  { apply lookup_lt_is_Some_2.
    rewrite <- (select_length_eq _ (seqZ cmin (cmax - cmin + 1)))
      by (rewrite length_map; reflexivity).
    apply lookup_lt_Some in Hq. exact Hq. }
  destruct Hqv as [v Hqv].
  destruct (select_row_inv _ _ _ q f v Hq Hqv) as [Hrange [q' [Hq' _]]].
  apply in_range_bounds in Hrange as (lo & hi & Hlo & Hhi & Hb).
  apply lookup_seqZ in Hq' as [Hf Hq'].
  destruct (index_min_spec _ _ Hcmin) as [Hcmin_in Hcmin_le].
  destruct (index_max_spec _ _ Hcmax) as [Hcmax_in Hcmax_ge].
  assert (Hout : Forall (fun d => (d < lo)%Z \/ (hi < d)%Z) (s_index china)).
  { eapply Forall_impl; [|exact Hclip]. intros d Hd. simpl in Hd.
    unfold in_range in Hd. rewrite Hlo, Hhi in Hd.
    apply andb_false_iff in Hd as [Hd|Hd]; apply Z.leb_gt in Hd; [left|right]; exact Hd. }
  pose proof (proj1 (Forall_forall _ _) Hout cmin Hcmin_in) as H1. simpl in H1.
  pose proof (proj1 (Forall_forall _ _) Hout cmax Hcmax_in) as H2. simpl in H2.
  pose proof (proj1 (Forall_forall _ _) Hcmax_ge cmin Hcmin_in) as H3. simpl in H3.
  exists lo, hi, cmin, cmax. repeat split; try assumption; lia.
Qed.

(** The value that the re-indexing of an increasing series puts at a date on
    or after its first label is the last known value there. *)
Lemma reindex_last_known (china : Series) (t cmin : Z) :
  is_strictly_increasing (s_index china) = true ->
  length (s_values china) = length (s_index china) ->
  Forall (fun c => c <> None) (s_values china) ->
  In cmin (s_index china) -> (cmin <= t)%Z ->
  exists d x, is_last_known china t d (Some x) /\
              take_cell (s_values china) (get_indexer_pad (s_index china) t) = Some x.
Proof.
  intros Hinc Hlen Hdef Hin Hle.
  pose proof (strictly_increasing_sorted _ Hinc) as Hs.
  apply list_elem_of_In, list_elem_of_lookup in Hin as [p0 Hp0].
  destruct (reindex_value_some _ (s_values china) t cmin p0 Hs Hlen Hp0 Hle)
    as (p & d & v & Hd & Hv & Hdt & Hmax & Hval).
  pose proof (proj1 (Forall_lookup _ _) Hdef p v Hv) as Hne.
  destruct v as [x|]; [|congruence].
  exists d, x. split; [|exact Hval].
  split; [exists p; split; assumption|]. split; assumption.
Qed.

(** The yield column written by the resampling path of step 6. *)
Lemma resample_fallback_column (china : Series) (main_df : DataFrame) :
  is_strictly_increasing (s_index china) = true ->
  length (s_values china) = length (s_index china) ->
  Forall (fun c => c <> None) (s_values china) ->
  series_empty (clip_to_panel main_df china) = true ->
  series_empty (clip_to_panel main_df (resample_D_ffill china)) = false ->
  snd (add_china_yield china main_df) = [WarnClipEmpty] /\
  exists col : column,
    get_column yield_col (fst (add_china_yield china main_df)) = Some col /\
    length col = length (df_index main_df) /\
    forall i t, df_index main_df !! i = Some t ->
      exists d x, is_last_known china t d (Some x) /\ (d < t)%Z /\
                  col !! i = Some (Some x).
Proof.
  intros Hinc Hlen Hdef Hclip Hre.
  destruct (resample_covers_panel china main_df Hclip Hre)
    as (lo & hi & cmin & cmax & Hlo & Hhi & Hcmin & Hcmax & Hlt1 & Hlt2 & Hres & Hout).
  assert (Hchina : series_empty china = false).
  { unfold series_empty. destruct (s_index china); [discriminate Hcmin|reflexivity]. }
  assert (Hstep : add_china_yield china main_df
                  = (set_column yield_col
                       (s_values (reindex_ffill
                                    (clip_to_panel main_df (resample_D_ffill china))
                                    (df_index main_df))) main_df,
                     [WarnClipEmpty])).
  { unfold add_china_yield. rewrite Hchina. simpl negb. cbv iota.
    rewrite Hclip. unfold bind, tell, ret. cbn [fst snd]. rewrite Hre. reflexivity. }
  rewrite Hstep. cbn [fst snd]. split; [reflexivity|].
  eexists. split; [apply get_set_column_eq|].
  split; [unfold reindex_ffill; cbn [s_values]; apply length_map|].
  intros i t Ht.
  destruct (index_min_spec _ _ Hlo) as [_ Hlo_le].
  destruct (index_max_spec _ _ Hhi) as [_ Hhi_ge].
  assert (Htin : In t (df_index main_df))
    by (apply list_elem_of_In; eapply list_elem_of_lookup_2; exact Ht).
  pose proof (proj1 (Forall_forall _ _) Hlo_le t Htin) as Hlot. simpl in Hlot.
  pose proof (proj1 (Forall_forall _ _) Hhi_ge t Htin) as Hthi. simpl in Hthi.
  rewrite Hres.
  set (ridx := seqZ cmin (cmax - cmin + 1)).
  set (g := fun t0 : Z => take_cell (s_values china) (get_indexer_pad (s_index china) t0)).
  set (p := in_range (index_min (df_index main_df)) (index_max (df_index main_df))).
  assert (Hpt : p t = true).
  { unfold p, in_range. rewrite Hlo, Hhi. apply andb_true_iff.
    split; apply Z.leb_le; lia. }
  assert (Hrt : ridx !! Z.to_nat (t - cmin) = Some t).
  { unfold ridx. apply lookup_seqZ. split; lia. }
  destruct (select_row_intro p ridx _ t Hrt Hpt) as [p0 Hp0].
  assert (Hfs : StronglySorted Z.lt (select (map p ridx) ridx)).
  { apply select_sorted, strictly_increasing_sorted, seqZ_increasing. }
  assert (Hflen : length (select (map p ridx) (map g ridx))
                  = length (select (map p ridx) ridx)).
  { apply select_length_eq. apply length_map. }
  destruct (reindex_value_some _ (select (map p ridx) (map g ridx)) t t p0
              Hfs Hflen Hp0 ltac:(lia))
    as (q & d' & v & Hqd & Hqv & Hd't & Hmax & Hval).
  assert (Hd' : d' = t).
  { pose proof (Hmax p0 t Hp0 ltac:(lia)). lia. }
  subst d'.
  destruct (select_row_inv p ridx (map g ridx) q t v Hqd Hqv) as [_ [q' [Hq' Hq'v]]].
  rewrite lookup_map, Hq' in Hq'v. cbn [option_map] in Hq'v. injection Hq'v as <-.
  destruct (index_min_spec _ _ Hcmin) as [Hcmin_in _].
  destruct (reindex_last_known china t cmin Hinc Hlen Hdef Hcmin_in ltac:(lia))
    as (d & x & Hlast & Hgx).
  exists d, x. split; [exact Hlast|]. split.
  - destruct Hlast as [[pd [Hpd _]] [Hdt _]].
    apply list_elem_of_lookup_2, list_elem_of_In in Hpd.
    pose proof (proj1 (Forall_forall _ _) Hout d Hpd) as Hd. simpl in Hd. lia.
  - unfold clip_to_panel, select_rows, reindex_ffill. cbn [s_index s_values].
    rewrite lookup_map, Ht. cbn [option_map]. fold p. fold ridx. fold g.
    rewrite Hval. unfold g. rewrite Hgx. reflexivity.
Qed.

(** X6.  The resampling fallback.  When the yield series (increasing dates, no
    undefined value) has no observation inside the panel's date range but its
    daily resampling has rows there, one warning is printed and every panel
    date carries the last yield observed before it. *)
Theorem resample_fallback_carries_last_known (china : Series) (main_df : DataFrame) :
  is_strictly_increasing (s_index china) = true ->
  length (s_values china) = length (s_index china) ->
  Forall (fun c => c <> None) (s_values china) ->
  series_empty (clip_to_panel main_df china) = true ->
  series_empty (clip_to_panel main_df (resample_D_ffill china)) = false ->
  snd (add_china_yield china main_df) = [WarnClipEmpty] /\
  exists col : column,
    get_column yield_col (fst (add_china_yield china main_df)) = Some col /\
    length col = length (df_index main_df) /\
    forall i t, df_index main_df !! i = Some t ->
      exists d x, is_last_known china t d (Some x) /\ (d < t)%Z /\
                  col !! i = Some (Some x).
Proof. apply resample_fallback_column. Qed.

Lemma resample_fallback_carries_last_known_witness :
  is_strictly_increasing (s_index straddling_yield) = true /\
  length (s_values straddling_yield) = length (s_index straddling_yield) /\
  Forall (fun c => c <> None) (s_values straddling_yield) /\
  series_empty (clip_to_panel five_day_panel straddling_yield) = true /\
  series_empty (clip_to_panel five_day_panel (resample_D_ffill straddling_yield))
  = false /\
  snd (add_china_yield straddling_yield five_day_panel) = [WarnClipEmpty] /\
  get_column yield_col (fst (add_china_yield straddling_yield five_day_panel))
  = Some (replicate 5 (Some (26 # 10)%Q)).
Proof.
  assert (H1 : is_strictly_increasing (s_index straddling_yield) = true) by reflexivity.
  assert (H2 : length (s_values straddling_yield) = length (s_index straddling_yield))
    by reflexivity.
  assert (H3 : Forall (fun c : option Q => c <> None) (s_values straddling_yield))
    by (repeat constructor; discriminate).
  assert (H4 : series_empty (clip_to_panel five_day_panel straddling_yield) = true)
    by reflexivity.
  assert (H5 : series_empty (clip_to_panel five_day_panel
                               (resample_D_ffill straddling_yield)) = false)
    by reflexivity.
  split; [exact H1|]. split; [exact H2|]. split; [exact H3|].
  split; [exact H4|]. split; [exact H5|].
  split; [exact (proj1 (resample_fallback_carries_last_known _ _ H1 H2 H3 H4 H5))|].
  reflexivity.
Defined.

(** ** No gap in the returned panel *)

Lemma assoc_set_In {A} (k n : string) (v w : A) (l : list (string * A)) :
  In (n, w) (assoc_set k v l) -> (n, w) = (k, v) \/ In (n, w) l.
Proof.
  induction l as [|[k' v'] r IH]; simpl.
  - intros [H|[]]. left. symmetry. exact H.
  - destruct (String.eqb k k') eqn:E.
    + apply String.eqb_eq in E. subst k'.
      intros [H|H]; [left; symmetry; exact H|right; right; exact H].
    + intros [H|H]; [right; left; exact H|].
      destruct (IH H) as [H'|H']; [left; exact H'|right; right; exact H'].
Qed.

Lemma sorted_strictly_increasing (idx : list Z) :
  StronglySorted Z.lt idx -> is_strictly_increasing idx = true.
Proof.
  induction 1 as [|d r Hs IH Hall]; [reflexivity|].
  destruct r as [|e r']; [reflexivity|].
  change (is_strictly_increasing (d :: e :: r'))
    with ((d <? e)%Z && is_strictly_increasing (e :: r')).
  rewrite IH, andb_true_r. apply Z.ltb_lt. inversion Hall; subst. assumption.
Qed.

(** The series handed to step 6 is well formed when the fetched table is. *)
Lemma china_series_well_formed (today : Z) (fetched : option DataFrame) :
  (forall bond, fetched = Some bond ->
     is_strictly_increasing (df_index bond) = true /\
     Forall (fun c => length (snd c) = length (df_index bond)) (df_columns bond)) ->
  is_strictly_increasing (s_index (fst (get_china_bond_yield today fetched))) = true /\
  length (s_values (fst (get_china_bond_yield today fetched)))
  = length (s_index (fst (get_china_bond_yield today fetched))) /\
  Forall (fun c => c <> None) (s_values (fst (get_china_bond_yield today fetched))).
Proof.
  intros Hwf.
  assert (Hdef : is_strictly_increasing (s_index (create_default_bond_data today)) = true /\
                 length (s_values (create_default_bond_data today))
                 = length (s_index (create_default_bond_data today))).
  { unfold create_default_bond_data. cbn [s_index s_values].
    split; [apply seqZ_increasing|]. rewrite length_seqZ, length_replicate. reflexivity. }
  split; [|split; [|apply get_china_bond_yield_defined]];
    unfold get_china_bond_yield;
    (destruct fetched as [bond|]; [|apply Hdef]);
    (destruct (df_empty bond); [apply Hdef|]);
    (destruct (get_column "中国国债收益率10年" bond) as [vs|] eqn:Ecol; [|apply Hdef]);
    (destruct (series_empty _); [apply Hdef|]);
    destruct (Hwf bond eq_refl) as [Hinc Hlen]; cbn [fst ret s_index s_values].
  - apply sorted_strictly_increasing, select_sorted, strictly_increasing_sorted.
    exact Hinc.
  - apply select_notna_length. apply assoc_get_In in Ecol.
    apply (proj1 (Forall_forall _ _) Hlen _ Ecol).
Qed.

Lemma fill_defined (vs : column) :
  vs = [] \/ Exists (fun c => c <> None) vs ->
  Forall (fun c => c <> None) (bfill_col (ffill_col vs)).
Proof.
  intros [->|H]; [constructor|apply fill_closure; exact H].
Qed.

(** The yield column that step 6 writes has one cell per panel date, and
    holds a defined cell unless the panel has no date at all. *)
Lemma yield_column_written (china : Series) (main_df : DataFrame) :
  is_strictly_increasing (s_index china) = true ->
  length (s_values china) = length (s_index china) ->
  Forall (fun c => c <> None) (s_values china) ->
  exists ys : column,
    fst (add_china_yield china main_df) = set_column yield_col ys main_df /\
    length ys = length (df_index main_df) /\
    (ys = [] \/ Exists (fun c => c <> None) ys).
Proof.
  intros Hinc Hlen Hdef.
  assert (Hscalar : forall q : Q,
             length (replicate (length (df_index main_df)) (Some q))
             = length (df_index main_df) /\
             (replicate (length (df_index main_df)) (Some q) = [] \/
              Exists (fun c : option Q => c <> None)
                     (replicate (length (df_index main_df)) (Some q)))).
  { intros q. split; [apply length_replicate|].
    destruct (length (df_index main_df)); [left; reflexivity|].
    right. simpl. left. discriminate. }
  destruct (series_empty (clip_to_panel main_df china)) eqn:Hclip.
  - destruct (series_empty (clip_to_panel main_df (resample_D_ffill china))) eqn:Hre.
    + exists (replicate (length (df_index main_df)) (Some default_yield)).
      split; [|apply Hscalar].
      unfold add_china_yield.
      destruct (series_empty china); [reflexivity|]. simpl negb. cbv iota.
      rewrite Hclip. unfold bind, tell, ret. cbn [fst snd]. rewrite Hre. reflexivity.
    + destruct (resample_fallback_column china main_df Hinc Hlen Hdef Hclip Hre)
        as (_ & col & Hget & Hl & Hcol).
      destruct (add_china_yield_fst china main_df) as [ys Hys].
      rewrite Hys, get_set_column_eq in Hget. injection Hget as ->.
      exists col. split; [exact Hys|]. split; [exact Hl|].
      destruct (df_index main_df) as [|t r] eqn:Eidx.
      * left. destruct col; [reflexivity|discriminate Hl].
      * right. destruct (Hcol 0 t) as (d & x & _ & _ & Hx).
        { reflexivity. }
        apply Exists_exists. exists (Some x). split; [|discriminate].
        apply list_elem_of_In. eapply list_elem_of_lookup_2. exact Hx.
  - exists (s_values (reindex_ffill (clip_to_panel main_df china) (df_index main_df))).
    split; [apply add_china_yield_overlap; exact Hclip|].
    split; [unfold reindex_ffill; cbn [s_values]; apply length_map|].
    right.
    destruct (s_index (clip_to_panel main_df china)) as [|d0 r0] eqn:Ehead.
    { apply series_empty_nil in Ehead. congruence. }
    assert (Hhead : head (s_index (clip_to_panel main_df china)) = Some d0)
      by (rewrite Ehead; reflexivity).
    destruct (reindexed_yield_spec china main_df d0 Hinc Hlen Hdef Hhead) as [Hon _].
    assert (H0 : s_index (clip_to_panel main_df china) !! 0 = Some d0)
      by (rewrite Ehead; reflexivity).
    assert (H0v : exists v, s_values (clip_to_panel main_df china) !! 0 = Some v).
    { apply lookup_lt_is_Some_2.
      unfold clip_to_panel, select_rows in *. cbn [s_index s_values] in *.
      rewrite <- (select_length_eq _ (s_index china) (s_values china))
        by (symmetry; exact Hlen).
      apply lookup_lt_Some in H0. exact H0. }
    destruct H0v as [v H0v].
    unfold clip_to_panel, select_rows in H0, H0v. cbn [s_index s_values] in H0, H0v.
    destruct (select_row_inv _ _ _ 0 d0 v H0 H0v) as [Hr _].
    apply in_range_bounds in Hr as (l & h & _ & Hh & Hb).
    destruct (index_max_spec _ h Hh) as [Hin _].
    apply list_elem_of_In, list_elem_of_lookup in Hin as [j Hj].
    destruct (Hon j h Hj ltac:(lia)) as (d & x & _ & Hc1).
    apply Exists_exists. exists (Some x). split; [|discriminate].
    apply list_elem_of_In. eapply list_elem_of_lookup_2. exact Hc1.
Qed.

Lemma final_fill_set (ys : column) (main_df : DataFrame) :
  fst (final_fill (set_column yield_col ys main_df))
  = bfill (ffill (set_column yield_col ys main_df)).
Proof.
  unfold final_fill.
  assert (Hhas : has_column yield_col (bfill (ffill (set_column yield_col ys main_df)))
                 = true).
  { unfold bfill, ffill. rewrite !has_column_map, has_column_set, String.eqb_refl.
    reflexivity. }
  rewrite Hhas. reflexivity.
Qed.

(** The columns of the panel after the basis step: one cell per date, none
    undefined. *)
Lemma basis_step_columns (data : DataFrame) (n : string) (vs : column) :
  In (n, vs) (df_columns (fst (add_basis (fst (clean_panel data))))) ->
  length vs = length (df_index (fst (clean_panel data))) /\
  Forall (fun c => c <> None) vs.
Proof.
  unfold add_basis.
  destruct (get_column spot_col (fst (clean_panel data))) as [spot|] eqn:Hs;
    [destruct (get_column near_col (fst (clean_panel data))) as [near|] eqn:Hn|];
    unfold bind, tell, ret; cbn [fst snd]; intros Hin.
  - unfold set_column in Hin. cbn [df_columns] in Hin.
    destruct (get_column_defined data _ _ Hs) as [Hls Hds].
    destruct (get_column_defined data _ _ Hn) as [Hln Hdn].
    apply assoc_set_In in Hin as [[= -> ->]|Hin].
    + split; [rewrite length_zip_with; lia|apply zip_sub_defined; assumption].
    + destruct (clean_panel_column data n vs Hin) as (_ & Hl & Hd & _). split; assumption.
  - destruct (clean_panel_column data n vs Hin) as (_ & Hl & Hd & _). split; assumption.
  - destruct (clean_panel_column data n vs Hin) as (_ & Hl & Hd & _). split; assumption.
Qed.

(** X7.  The panel that is returned and written has no gap: it has the yield
    column, every column has one cell per date of the index, and no cell of
    any column is undefined, provided the fetched yield table, when there is
    one, has increasing dates and columns as long as its index. *)
Theorem returned_panel_has_no_gap (env : Env) (data : DataFrame) :
  (forall bond, bond_zh_us_rate env = Some bond ->
     is_strictly_increasing (df_index bond) = true /\
     Forall (fun c => length (snd c) = length (df_index bond)) (df_columns bond)) ->
  has_column yield_col (fst (build_panel env data)) = true /\
  forall n vs,
    In (n, vs) (df_columns (fst (build_panel env data))) ->
    length vs = length (df_index (fst (build_panel env data))) /\
    Forall (fun c => c <> None) vs.
Proof.
  intros Hwf. split.
  { rewrite build_panel_fst. apply final_fill_has_yield. }
  intros n vs. rewrite build_panel_index, build_panel_fst.
  destruct (china_series_well_formed (today env) (bond_zh_us_rate env) Hwf)
    as (Hinc & Hlen & Hdef).
  destruct (yield_column_written _ (fst (add_basis (fst (clean_panel data))))
              Hinc Hlen Hdef) as (ys & Hys & Hyl & Hyex).
  rewrite Hys, final_fill_set. rewrite add_basis_index in Hyl.
  unfold bfill, ffill, map_columns, set_column. cbn [df_columns df_index].
  rewrite map_map. cbn [fst snd]. intros Hin.
  apply in_map_iff in Hin as [[n0 vs0] [Heq Hin]]. cbn [fst snd] in Heq.
  injection Heq as -> <-.
  apply assoc_set_In in Hin as [[= -> ->]|Hin].
  - split.
    + rewrite bfill_col_length. unfold ffill_col. rewrite ffill_from_length. exact Hyl.
    + apply fill_defined. exact Hyex.
  - destruct (basis_step_columns data n vs0 Hin) as [Hl Hd].
    unfold ffill_col. rewrite ffill_from_id by exact Hd.
    rewrite bfill_col_id by exact Hd. split; assumption.
Qed.

Lemma returned_panel_has_no_gap_witness :
  (forall bond, bond_zh_us_rate mid_env = Some bond ->
     is_strictly_increasing (df_index bond) = true /\
     Forall (fun c => length (snd c) = length (df_index bond)) (df_columns bond)) /\
  has_column yield_col
    (fst (build_panel mid_env
            (mkDF [1; 2; 3; 4; 5]%Z
               [ ("CL=F", [Some 70%Q; Some 71%Q; Some 72%Q; Some 73%Q; Some 74%Q]) ])))
  = true.
Proof.
  assert (H : forall bond, bond_zh_us_rate mid_env = Some bond ->
     is_strictly_increasing (df_index bond) = true /\
     Forall (fun c => length (snd c) = length (df_index bond)) (df_columns bond)).
  { intros bond [= <-]. split; [reflexivity|repeat constructor]. }
  split; [exact H|].
  exact (proj1 (returned_panel_has_no_gap mid_env _ H)).
Defined.

(** ** Suffixes *)

Lemma string_length_append (a b : string) :
  String.length (a ++ b) = String.length a + String.length b.
Proof.
  induction a as [|c a IH]; [reflexivity|].
  change (S (String.length (a ++ b)) = S (String.length a) + String.length b).
  rewrite IH. reflexivity.
Qed.

Lemma substring_whole (s : string) : substring 0 (String.length s) s = s.
Proof.
  induction s as [|c s IH]; simpl; [reflexivity|]. rewrite IH. reflexivity.
Qed.

Lemma substring_append_r (pre suf : string) :
  substring (String.length pre) (String.length suf) (pre ++ suf) = suf.
Proof.
  induction pre as [|c pre IH]; [apply substring_whole|exact IH].
Qed.

Lemma substring_split (s : string) : forall k,
  k <= String.length s ->
  s = (substring 0 k s ++ substring k (String.length s - k) s)%string.
Proof.
  induction s as [|c s IH]; intros k Hk.
  - simpl in Hk. replace k with 0 by lia. reflexivity.
  - destruct k as [|k].
    + simpl. rewrite substring_whole. reflexivity.
    + simpl in Hk.
      change (String c s
              = String c (substring 0 k s ++ substring k (String.length s - k) s)%string).
      f_equal. apply IH. lia.
Qed.

(** [endswith] holds exactly for the strings that are some prefix followed
    by the suffix; in particular a string shorter than the suffix never
    matches. *)
Lemma endswith_iff_suffix (suffix s : string) :
  endswith suffix s = true <-> exists pre, s = (pre ++ suffix)%string.
Proof.
  unfold endswith. split.
  - intros H. apply andb_true_iff in H as [Hlen Heq].
    apply Nat.leb_le in Hlen. apply String.eqb_eq in Heq.
    pose proof (substring_split s (String.length s - String.length suffix)
                  ltac:(lia)) as Hs.
    replace (String.length s - (String.length s - String.length suffix))
      with (String.length suffix) in Hs by lia.
    rewrite Heq in Hs.
    exists (substring 0 (String.length s - String.length suffix) s). exact Hs.
  - intros [pre ->]. rewrite string_length_append.
    apply andb_true_iff. split; [apply Nat.leb_le; lia|].
    replace (String.length pre + String.length suffix - String.length suffix)
      with (String.length pre) by lia.
    rewrite substring_append_r. apply String.eqb_refl.
Qed.

(** ** Shape of the snapshot *)

Lemma assoc_set_keys_new {A} (k : string) (v : A) (l : list (string * A)) :
  assoc_get k l = None -> map fst (assoc_set k v l) = map fst l ++ [k].
Proof.
  induction l as [|[k' v'] r IH]; simpl; [reflexivity|].
  destruct (String.eqb k k'); [discriminate|].
  intros H. simpl. f_equal. apply IH. exact H.
Qed.

Lemma add_group_keys (key : string) (group : DataFrame -> Z -> pyval)
  (table : option DataFrame) (md : list (string * pyval)) :
  assoc_get key md = None ->
  map fst (add_group key group table md)
  = map fst md ++ (if table_available table then [key] else []).
Proof.
  intros Hnew. unfold table_available.
  destruct table as [t|]; [|unfold add_group; rewrite app_nil_r; reflexivity].
  destruct (df_empty t) eqn:E.
  - unfold add_group. rewrite E, app_nil_r. reflexivity.
  - destruct (add_group_present key group t md E) as (d & _ & ->).
    apply assoc_set_keys_new. exact Hnew.
Qed.

Lemma latest_values_get (k : string) (row : list (string * option Q)) :
  endswith "_pct_change" k = false ->
  assoc_get k (map (fun kv => (fst kv, PyFloat (snd kv)))
                   (List.filter (fun kv => negb (endswith "_pct_change" (fst kv))) row))
  = option_map PyFloat (assoc_get k row).
Proof.
  intros Hk. induction row as [|[k' v] r IH]; [reflexivity|].
  cbn [List.filter fst snd assoc_get].
  destruct (String.eqb k k') eqn:E.
  - apply String.eqb_eq in E. subst k'. rewrite Hk. cbn [negb map fst snd assoc_get].
    rewrite String.eqb_refl. reflexivity.
  - destruct (negb (endswith "_pct_change" k')); [|exact IH].
    cbn [map fst snd assoc_get]. rewrite E. exact IH.
Qed.

(** X8.  The snapshot of a panel.  There is none exactly when the panel is
    missing or empty.  Otherwise its keys are the date, the values, and one
    group per indicator table that is given and not empty, in this order and
    nothing else; the date is that of the panel's last row; the values hold
    the last cell of every column whose name does not end in "_pct_change"
    and no other key.  (Column names are taken distinct where a value is
    read: of two columns of one name a lookup here finds the first, a Python
    dict keeps the last.) *)
Theorem snapshot_shape (df buffett_df spread_df : option DataFrame) :
  (prepare_market_data_for_analysis df buffett_df spread_df = None <->
   table_available df = false) /\
  forall market_data,
    prepare_market_data_for_analysis df buffett_df spread_df = Some market_data ->
    map fst market_data
    = ["latest_date"; "latest_values"]
        ++ (if table_available buffett_df then ["buffett_indicator"] else [])
        ++ (if table_available spread_df then ["equity_bond_spread"] else []) /\
    exists panel d items,
      df = Some panel /\
      list.last (df_index panel) = Some d /\
      assoc_get "latest_date" market_data = Some (PyDate d) /\
      assoc_get "latest_values" market_data = Some (PyDict items) /\
      (forall k, In k (map fst items) <->
                 In k (col_names panel) /\
                 ~ exists pre, k = (pre ++ "_pct_change")%string) /\
      (forall k vs,
          NoDup (col_names panel) ->
          get_column k panel = Some vs ->
          (~ exists pre, k = (pre ++ "_pct_change")%string) ->
          assoc_get k items = Some (PyFloat (default None (list.last vs)))).
Proof.
  split.
  - unfold prepare_market_data_for_analysis, table_available.
    destruct df as [panel|]; [|split; reflexivity].
    destruct (df_empty panel) eqn:E; [split; reflexivity|].
    destruct (df_empty_false panel E) as [Hidx _].
    destruct (last_nonempty _ Hidx) as [d ->].
    split; discriminate.
  - intros market_data Hprep.
    unfold prepare_market_data_for_analysis in Hprep.
    destruct df as [panel|]; [|discriminate].
    destruct (df_empty panel) eqn:E; [discriminate|].
    destruct (list.last (df_index panel)) as [d|] eqn:Hd; [|discriminate].
    injection Hprep as <-.
    set (items := map (fun kv : string * option Q => (fst kv, PyFloat (snd kv)))
                      (List.filter
                         (fun kv => negb (endswith "_pct_change" (fst kv)))
                         (iloc_last panel))).
    set (base := [("latest_date", PyDate d); ("latest_values", PyDict items)]).
    split.
    + rewrite add_group_keys.
      * rewrite add_group_keys by reflexivity. rewrite <- app_assoc. reflexivity.
      * rewrite add_group_other by reflexivity. reflexivity.
    + exists panel, d, items. split; [reflexivity|]. split; [exact Hd|].
      split; [rewrite !add_group_other by reflexivity; reflexivity|].
      split; [rewrite !add_group_other by reflexivity; reflexivity|].
      split.
      * intros k. unfold items. rewrite map_map. cbn [fst].
        rewrite in_map_iff. split.
        -- intros [[k' v] [Hk Hin]]. cbn [fst] in Hk. subst k'.
           apply filter_In in Hin as [Hin Hf]. cbn [fst] in Hf.
           split.
           ++ unfold iloc_last in Hin. apply in_map_iff in Hin as [c [Hc Hin]].
              injection Hc as <- _. apply in_map. exact Hin.
           ++ intros Hsuf. apply endswith_iff_suffix in Hsuf.
              rewrite Hsuf in Hf. discriminate Hf.
        -- intros [Hin Hnot]. unfold col_names in Hin.
           apply in_map_iff in Hin as [c [<- Hin]].
           exists (fst c, default None (list.last (snd c))). split; [reflexivity|].
           apply filter_In. split.
           ++ unfold iloc_last.
              apply (in_map (fun c => (fst c, default None (list.last (snd c))))
                            _ c Hin).
           ++ cbn [fst]. destruct (endswith "_pct_change" (fst c)) eqn:Es;
                [|reflexivity].
              exfalso. apply Hnot. apply endswith_iff_suffix. exact Es.
      * intros k vs _ Hget Hnot. unfold items.
        rewrite latest_values_get.
        -- rewrite iloc_last_get, Hget. reflexivity.
        -- destruct (endswith "_pct_change" k) eqn:Es; [|reflexivity].
           exfalso. apply Hnot. apply endswith_iff_suffix. exact Es.
Qed.

Lemma snapshot_shape_witness :
  exists market_data items,
    prepare_market_data_for_analysis (Some five_day_panel)
      (Some descending_table) None = Some market_data /\
    map fst market_data = ["latest_date"; "latest_values"; "buffett_indicator"] /\
    assoc_get "latest_date" market_data = Some (PyDate 5) /\
    assoc_get "latest_values" market_data = Some (PyDict items) /\
    assoc_get "OIL_price" items = Some (PyFloat (Some 74%Q)).
Proof.
  destruct (prepare_market_data_for_analysis (Some five_day_panel)
              (Some descending_table) None) as [md|] eqn:Hprep;
    [|vm_compute in Hprep; discriminate Hprep].
  destruct (proj2 (snapshot_shape (Some five_day_panel) (Some descending_table) None)
              md Hprep)
    as (Hkeys & p & d & items & Hp & Hd & Hdate & Hvals & _ & Hval).
  injection Hp as <-.
  assert (Hd5 : d = 5%Z) by (vm_compute in Hd; congruence). subst d.
  exists md, items. split; [reflexivity|]. split; [exact Hkeys|].
  split; [exact Hdate|]. split; [exact Hvals|].
  apply (Hval "OIL_price" [Some 70%Q; Some 71%Q; Some 72%Q; Some 73%Q; Some 74%Q]).
  - refine (bool_decide_unpack _ _). vm_compute. exact I.
  - reflexivity.
  - intros [pre Hpre]. apply (f_equal String.length) in Hpre.
    rewrite string_length_append in Hpre. simpl in Hpre. lia.
Defined.

(** ** The date of the snapshot *)










(** ** The columns of the report table *)

Lemma name_in_In (col : string) (columns : list string) :
  name_in col columns = true <-> In col columns.
Proof.
  unfold name_in. rewrite existsb_exists. split.
  - intros [x [Hx He]]. apply String.eqb_eq in He. subst x. exact Hx.
  - intros H. exists col. split; [exact H|apply String.eqb_refl].
Qed.

Lemma name_in_perm (col : string) (l l' : list string) :
  Permutation l l' -> name_in col l = name_in col l'.
Proof.
  intros Hp. destruct (name_in col l') eqn:E.
  - apply name_in_In. apply name_in_In in E.
    apply (Permutation_in col (Permutation_sym Hp) E).
  - destruct (name_in col l) eqn:E'; [|reflexivity].
    apply name_in_In in E'. apply (Permutation_in col Hp) in E'.
    apply name_in_In in E'. congruence.
Qed.

Lemma list_remove_perm (col : string) (columns : list string) :
  name_in col columns = true ->
  Permutation (col :: list_remove col columns) columns.
Proof.
  induction columns as [|c r IH]; [discriminate|].
  unfold name_in. cbn [existsb list_remove].
  destruct (String.eqb col c) eqn:E.
  - apply String.eqb_eq in E. subst c. reflexivity.
  - cbn [orb]. intros H. rewrite perm_swap. constructor. apply IH. exact H.
Qed.

Lemma priority_loop_perm (priority : list string) : forall ordered display,
  Permutation (fst (priority_loop priority ordered display)
               ++ snd (priority_loop priority ordered display))
              (ordered ++ display).
Proof.
  induction priority as [|col rest IH]; intros ordered display; [reflexivity|].
  cbn [priority_loop]. destruct (name_in col display) eqn:E; [|apply IH].
  rewrite IH, <- app_assoc. apply Permutation_app_head.
  apply list_remove_perm. exact E.
Qed.

Lemma ordered_columns_perm (columns : list string) :
  Permutation (ordered_columns columns) columns.
Proof. apply (priority_loop_perm priority_columns [] columns). Qed.

Lemma filter_all {A} (f : A -> bool) (l : list A) :
  (forall x, In x l -> f x = true) -> List.filter f l = l.
Proof.
  induction l as [|x r IH]; intros H; [reflexivity|].
  cbn [List.filter]. rewrite (H x (or_introl eq_refl)). f_equal.
  apply IH. intros y Hy. apply H. right. exact Hy.
Qed.

Lemma valid_columns_ordered (columns : list string) :
  valid_columns columns = ordered_columns columns.
Proof.
  unfold valid_columns.
  rewrite (name_in_perm yield_col _ _ (ordered_columns_perm columns)).
  destruct (name_in yield_col columns); cbn [negb andb];
    apply filter_all; intros x Hx; apply name_in_In;
    apply (Permutation_in x (ordered_columns_perm columns) Hx).
Qed.

Lemma list_remove_filter (col : string) (columns : list string) :
  NoDup columns ->
  list_remove col columns = List.filter (fun c => negb (String.eqb col c)) columns.
Proof.
  induction 1 as [|c r Hc Hr IH]; [reflexivity|].
  cbn [list_remove List.filter]. destruct (String.eqb col c) eqn:E; cbn [negb].
  - apply String.eqb_eq in E. subst c. symmetry. apply filter_all.
    intros x Hx. destruct (String.eqb col x) eqn:E'; [|reflexivity].
    apply String.eqb_eq in E'. subst x. exfalso. apply Hc.
    apply list_elem_of_In. exact Hx.
  - f_equal. exact IH.
Qed.

Lemma NoDup_filter_names (f : string -> bool) (l : list string) :
  NoDup l -> NoDup (List.filter f l).
Proof.
  induction 1 as [|c r Hc Hr IH]; [constructor|].
  cbn [List.filter]. destruct (f c); [|exact IH].
  constructor; [|exact IH]. intros Hin. apply Hc.
  apply list_elem_of_In. apply list_elem_of_In in Hin.
  apply filter_In in Hin as [Hin _]. exact Hin.
Qed.

Lemma priority_loop_spec (priority : list string) : forall ordered display,
  NoDup priority -> NoDup display ->
  priority_loop priority ordered display
  = (ordered ++ List.filter (fun c => name_in c display) priority,
     List.filter (fun c => negb (name_in c priority)) display).
Proof.
  induction priority as [|col rest IH]; intros ordered display Hp Hd.
  - cbn [priority_loop List.filter]. rewrite app_nil_r. f_equal.
    symmetry. apply filter_all. reflexivity.
  - inversion Hp as [|? ? Hcol Hrest]; subst.
    assert (Hnot : name_in col rest = false).
    { destruct (name_in col rest) eqn:E; [|reflexivity].
      apply name_in_In in E. exfalso. apply Hcol. apply list_elem_of_In. exact E. }
    assert (Hdisp : List.filter (fun c => negb (name_in c (col :: rest))) display
                    = List.filter (fun c => negb (name_in c rest))
                        (List.filter (fun c => negb (String.eqb col c)) display)).
    { clear. induction display as [|c r IHd]; [reflexivity|].
      cbn [List.filter]. unfold name_in at 1. cbn [existsb].
      rewrite (String.eqb_sym c col).
      destruct (String.eqb col c); cbn [negb orb List.filter].
      - exact IHd.
      - fold (name_in c rest). destruct (negb (name_in c rest)); [f_equal|]; exact IHd. }
    cbn [priority_loop List.filter]. destruct (name_in col display) eqn:E.
    + rewrite IH; [|exact Hrest|].
      * rewrite <- app_assoc. cbn [app]. f_equal.
        -- f_equal. f_equal. apply filter_ext_in. intros c Hc.
           rewrite (list_remove_filter col display Hd).
           destruct (name_in c display) eqn:Ec.
           ++ apply name_in_In. apply filter_In. split; [apply name_in_In; exact Ec|].
              destruct (String.eqb col c) eqn:Ecc; [|reflexivity].
              apply String.eqb_eq in Ecc. subst c.
              apply name_in_In in Hc. congruence.
           ++ destruct (name_in c (List.filter (fun c0 => negb (String.eqb col c0))
                                     display)) eqn:Ec'; [|reflexivity].
              apply name_in_In, filter_In in Ec' as [Ec' _].
              apply name_in_In in Ec'. congruence.
        -- rewrite Hdisp, (list_remove_filter col display Hd). reflexivity.
      * rewrite (list_remove_filter col display Hd). apply NoDup_filter_names. exact Hd.
    + rewrite IH by assumption. f_equal. rewrite Hdisp. f_equal.
      symmetry. apply filter_all. intros c Hc.
      destruct (String.eqb col c) eqn:Ecc; [|reflexivity].
      apply String.eqb_eq in Ecc. subst c. apply name_in_In in Hc. congruence.
Qed.

Lemma priority_columns_distinct : NoDup priority_columns.
Proof. refine (bool_decide_unpack _ _). vm_compute. exact I. Qed.

(** X10.  The table of the report shows the columns of the frame, none
    dropped and none added, so the step that puts a lost yield column back
    never acts.  When the column names are distinct, the priority columns
    that the frame has come first, in the order of the priority list, and the
    other columns follow in the order of the frame. *)
Theorem report_columns_order (columns : list string) :
  Permutation (valid_columns columns) columns /\
  valid_columns columns = ordered_columns columns /\
  (NoDup columns ->
   valid_columns columns
   = List.filter (fun c => name_in c columns) priority_columns
     ++ List.filter (fun c => negb (name_in c priority_columns)) columns).
Proof.
  split; [rewrite valid_columns_ordered; apply ordered_columns_perm|].
  split; [apply valid_columns_ordered|].
  intros Hd. rewrite valid_columns_ordered. unfold ordered_columns.
  rewrite (priority_loop_spec priority_columns [] columns
             priority_columns_distinct Hd).
  reflexivity.
Qed.

Lemma report_columns_order_witness :
  valid_columns [ "SILVER_future"; "OIL_price"; "GOLD_basis_spot_vs_near";
                  "China_10Y_Treasury_Yield" ]
  = [ "China_10Y_Treasury_Yield"; "OIL_price"; "SILVER_future";
      "GOLD_basis_spot_vs_near" ].
Proof.
  rewrite (proj2 (proj2 (report_columns_order
             [ "SILVER_future"; "OIL_price"; "GOLD_basis_spot_vs_near";
               "China_10Y_Treasury_Yield" ]))).
  - reflexivity.
  - refine (bool_decide_unpack _ _). vm_compute. exact I.
Defined.

(** ** The bands around the mean *)






(** ** The frame of the spread chart *)

Lemma select_map_filter {A} (p : A -> bool) (l : list A) :
  select (map p l) l = List.filter p l.
Proof.
  induction l as [|x r IH]; [reflexivity|].
  cbn [map select List.filter]. destruct (p x); [f_equal|]; exact IH.
Qed.

Lemma get_column_select_rows (p : Z -> bool) (n : string) (df : DataFrame) :
  get_column n (select_rows_df p df)
  = option_map (select (map p (df_index df))) (get_column n df).
Proof.
  unfold get_column, select_rows_df. cbn [df_columns].
  induction (df_columns df) as [|[k w] r IH]; [reflexivity|].
  cbn [map assoc_get fst snd]. destruct (String.eqb n k); [reflexivity|exact IH].
Qed.

Lemma set_column_lengths (n : string) (vs : column) (df : DataFrame) :
  length vs = length (df_index df) ->
  Forall (fun c => length (snd c) = length (df_index df)) (df_columns df) ->
  Forall (fun c => length (snd c) = length (df_index (set_column n vs df)))
         (df_columns (set_column n vs df)).
Proof.
  intros Hvs Hall. apply Forall_forall. intros [k w] Hin.
  unfold set_column in Hin. cbn [df_columns] in Hin.
  apply assoc_set_In in Hin as [Hin|Hin].
  - injection Hin as _ ->. exact Hvs.
  - apply (proj1 (Forall_forall _ _) Hall (k, w) Hin).
Qed.

Lemma band_plus_length (k : Q) (a b : column) :
  length a = length b -> length (band_plus k a b) = length a.
Proof.
  intros H. unfold band_plus. rewrite length_zip_with, length_map. lia.
Qed.

Lemma band_minus_length (k : Q) (a b : column) :
  length a = length b -> length (band_minus k a b) = length a.
Proof.
  intros H. unfold band_minus. rewrite length_zip_with, length_map. lia.
Qed.

Lemma rolling_mean_length (W : nat) (minp : Z) (v : column) :
  length (rolling_mean W minp v) = length v.
Proof. apply roll_length. Qed.

Lemma rolling_std_length (sqrtQ : Q -> Q) (W : nat) (minp : Z) (v : column) :
  length (rolling_std sqrtQ W minp v) = length v.
Proof. unfold rolling_std, rolling_var. rewrite length_map. apply roll_length. Qed.

Lemma ascending_head_least (e : Z) (r : list Z) :
  is_ascending (e :: r) = true -> Forall (fun d => (e <= d)%Z) r.
Proof.
  revert e. induction r as [|x r IH]; intros e H; [constructor|].
  cbn [is_ascending] in H. apply andb_true_iff in H as [Hex Hr].
  apply Z.leb_le in Hex. constructor; [exact Hex|].
  eapply Forall_impl; [|exact (IH x Hr)]. cbn beta. intros d Hd. lia.
Qed.

Lemma ascending_tail (e : Z) (r : list Z) :
  is_ascending (e :: r) = true -> is_ascending r = true.
Proof.
  destruct r as [|x r]; [reflexivity|]. cbn [is_ascending].
  intros H. apply andb_true_iff in H as [_ H]. exact H.
Qed.

Lemma select_all {A} (p : Z -> bool) (idx : list Z) : forall vs : list A,
  Forall (fun d => p d = true) idx -> length vs = length idx ->
  select (map p idx) vs = vs.
Proof.
  induction idx as [|e r IH]; intros vs Hall Hlen.
  - destruct vs; [reflexivity|discriminate].
  - destruct vs as [|v vs]; [discriminate|].
    inversion Hall as [|? ? He Hr]; subst.
    cbn [map select]. rewrite He. f_equal. apply IH; [exact Hr|].
    simpl in Hlen. lia.
Qed.

(** On ascending dates, the rows from a date on are what is left when the
    rows before it are cut off. *)
Lemma select_from_date {A} (lo : Z) (idx : list Z) : forall vs : list A,
  is_ascending idx = true -> length vs = length idx ->
  select (map (fun d => (lo <=? d)%Z) idx) vs
  = drop (length (List.filter (fun d => (d <? lo)%Z) idx)) vs.
Proof.
  induction idx as [|e r IH]; intros vs Hasc Hlen.
  - destruct vs; [reflexivity|discriminate].
  - destruct vs as [|v vs]; [discriminate|].
    assert (Hlen' : length vs = length r) by (simpl in Hlen; lia).
    cbn [map select List.filter].
    destruct (lo <=? e)%Z eqn:E.
    + apply Z.leb_le in E.
      assert (Elt : (e <? lo)%Z = false) by (apply Z.ltb_ge; exact E).
      rewrite Elt.
      pose proof (ascending_head_least e r Hasc) as Hleast.
      assert (Hnone : List.filter (fun d => (d <? lo)%Z) r = []).
      { clear -Hleast E. induction Hleast as [|x r Hx Hr IHr]; [reflexivity|].
        cbn [List.filter].
        assert (Ex : (x <? lo)%Z = false) by (apply Z.ltb_ge; lia).
        rewrite Ex. exact IHr. }
      rewrite Hnone. cbn [length drop]. f_equal.
      apply select_all; [|exact Hlen'].
      eapply Forall_impl; [|exact Hleast]. cbn beta. intros d Hd.
      apply Z.leb_le. lia.
    + apply Z.leb_gt in E.
      assert (Elt : (e <? lo)%Z = true) by (apply Z.ltb_lt; exact E).
      rewrite Elt. cbn [length drop].
      apply IH; [exact (ascending_tail e r Hasc)|exact Hlen'].
Qed.

(** X12.  For a table whose dates ascend.  The indicator frame is computed exactly
    when the table has a spread column.  It is the table with its rows before
    2010-01-01 cut off at the front: it starts at the first date from
    2010-01-01 on and keeps every later row in place; a column of the table
    that is not named like one of the six indicator columns is kept, cut in
    the same way; and when every column of the table has one value per row,
    so has every column of the frame. *)
Theorem chart_frame_rows (sqrtQ : Q -> Q) (df : DataFrame) :
  is_ascending (df_index df) = true ->
  (plot_equity_bond_spread sqrtQ df = None <-> has_column "股债利差" df = false) /\
  forall out,
    plot_equity_bond_spread sqrtQ df = Some out ->
    let k := length (List.filter (fun d => (d <? date_2010_01_01)%Z) (df_index df)) in
    df_index out = drop k (df_index df) /\
    Forall (fun d => (date_2010_01_01 <= d)%Z) (df_index out) /\
    (forall name vs,
        get_column name df = Some vs ->
        length vs = length (df_index df) ->
        ~ In name ["5年均线"; "5年标准差"; "+1 STD"; "-1 STD"; "+2 STD"; "-2 STD"] ->
        get_column name out = Some (drop k vs)) /\
    (Forall (fun c => length (snd c) = length (df_index df)) (df_columns df) ->
     Forall (fun c => length (snd c) = length (df_index out)) (df_columns out)).
Proof.
  intros Hasc. split.
  - unfold plot_equity_bond_spread.
    rewrite get_column_select_rows.
    destruct (get_column "股债利差" df) as [v|] eqn:Hv; cbn [option_map mbind option_bind].
    + assert (Hhas : has_column "股债利差" df = true)
        by (apply has_column_get; eauto).
      rewrite Hhas. split; [|discriminate].
      intros H. exfalso. revert H.
      repeat (first [ rewrite get_set_column_eq
                    | rewrite get_set_column_ne by reflexivity
                    | rewrite get_column_select_rows, Hv ];
              cbn [option_map mbind option_bind]).
      discriminate.
    + split; [|reflexivity]. intros _.
      destruct (has_column "股债利差" df) eqn:Hhas; [|reflexivity].
      apply has_column_get in Hhas as [vs Hvs]. congruence.
  - intros out H k.
    pose proof H as H0. unfold plot_equity_bond_spread in H0.
    set (p := fun d => (date_2010_01_01 <=? d)%Z) in *.
    destruct (get_column "股债利差" (select_rows_df p df)) as [src|] eqn:Hsrc;
      [|discriminate].
    cbn [mbind option_bind] in H0.
    step_get H0. rewrite Hsrc in H0. step_get H0.
    injection H0 as <-.
    split; [|split; [|split]].
    + unfold set_column, select_rows_df. cbn [df_index].
      apply (select_from_date date_2010_01_01 (df_index df) (df_index df) Hasc eq_refl).
    + unfold set_column, select_rows_df. cbn [df_index].
      rewrite select_map_filter. apply Forall_forall. intros d Hd.
      apply filter_In in Hd as [_ Hd]. apply Z.leb_le. exact Hd.
    + intros name vs Hget Hlen Hname.
      repeat (rewrite get_set_column_ne;
              [|apply String.eqb_neq; intros ->; apply Hname; simpl; tauto]).
      rewrite get_column_select_rows, Hget. cbn [option_map]. f_equal.
      apply (select_from_date date_2010_01_01 (df_index df) vs Hasc Hlen).
    + intros Hall.
      assert (Hdf0 : Forall (fun c => length (snd c) = length (df_index (select_rows_df p df)))
                            (df_columns (select_rows_df p df))).
      { apply Forall_forall. intros c Hc.
        unfold select_rows_df in *. cbn [df_index df_columns] in *.
        apply in_map_iff in Hc as [c0 [<- Hc0]]. cbn [snd].
        apply select_length_eq.
        apply (proj1 (Forall_forall _ _) Hall c0 Hc0). }
      assert (Hlen : length src = length (df_index (select_rows_df p df))).
      { unfold get_column in Hsrc.
        assert (Hin : In ("股债利差", src) (df_columns (select_rows_df p df))).
        { clear -Hsrc. induction (df_columns (select_rows_df p df)) as [|[k w] r IH];
            [discriminate|].
          cbn [assoc_get] in Hsrc. destruct (String.eqb "股债利差" k) eqn:E.
          - apply String.eqb_eq in E. subst k. injection Hsrc as ->. left. reflexivity.
          - right. apply IH. exact Hsrc. }
        apply (proj1 (Forall_forall _ _) Hdf0 _ Hin). }
      repeat (apply set_column_lengths;
              [first [ rewrite band_plus_length | rewrite band_minus_length
                     | rewrite rolling_mean_length | rewrite rolling_std_length ];
               rewrite ?rolling_mean_length, ?rolling_std_length;
               first [exact Hlen | reflexivity]|]).
      exact Hdf0.
Qed.

Lemma chart_frame_rows_witness :
  exists out,
    plot_equity_bond_spread sqrt_stub early_spread_table = Some out /\
    df_index out = [14613; 14614]%Z /\
    get_column "沪深300指数" out = Some [Some 3500%Q; Some 3520%Q] /\
    Forall (fun c => length (snd c) = 2) (df_columns out).
Proof.
  destruct (plot_equity_bond_spread sqrt_stub early_spread_table) as [out|] eqn:H;
    [|vm_compute in H; discriminate H].
  destruct (proj2 (chart_frame_rows sqrt_stub early_spread_table eq_refl) out H)
    as (Hidx & _ & Hkeep & Hlen).
  exists out. split; [reflexivity|]. split; [exact Hidx|]. split.
  - apply (Hkeep "沪深300指数" [Some 3400%Q; Some 3500%Q; Some 3520%Q]);
      [reflexivity|reflexivity|].
    simpl. intros [E|[E|[E|[E|[E|[E|[]]]]]]]; discriminate E.
  - assert (Hall : Forall (fun c => length (snd c) = length (df_index early_spread_table))
                          (df_columns early_spread_table))
      by (repeat constructor).
    specialize (Hlen Hall). rewrite Hidx in Hlen. exact Hlen.
Defined.
